(** * Subscription store, payment simulator and create workflow

    A shallow embedding of the Go services of the observability workshop:
    the in-memory [SubscriptionRepository], the subscription handlers
    (V1, V2, V3), the HTTP payment client, and the payment service's
    simulated [PaymentProcessor] with its request validation and fee
    computation.

    Logging, metrics and span bookkeeping have no influence on the values
    computed and are left out.  The process-global sources the code reads
    ([math/rand], [time.Now], [time.Sleep]) are made explicit as a [World]
    threaded through a state monad. *)

From Stdlib Require Import ZArith NArith Lia PrimFloat.
From stdpp Require Import base option list strings pretty gmap.

Set Warnings "-inexact-float,-clear-no-such-hyp".

Open Scope Z_scope.

(** ** State passing *)

Definition St (S A : Type) : Type := S → A * S.

Definition st_ret {S A} (a : A) : St S A := λ s, (a, s).

Definition st_bind {S A B} (m : St S A) (k : A → St S B) : St S B :=
  λ s, let '(a, s') := m s in k a s'.

Definition st_modify {S} (f : S → S) : St S unit := λ s, (tt, f s).

Declare Scope st_scope.
Delimit Scope st_scope with st.
Notation "x ←$ m ; k" := (st_bind m (λ x, k))
  (at level 100, m at level 99, k at level 200, right associativity,
   format "x  ←$  m ;  '/' k") : st_scope.
Notation "m ;;$ k" := (st_bind m (λ _, k))
  (at level 100, k at level 200, right associativity,
   format "m  ;;$  '/' k") : st_scope.
Open Scope st_scope.

(** ** The Go runtime the services read *)

(** An instant, in nanoseconds since the Unix epoch ([Time.UnixNano]). *)
Definition Time : Type := Z.

(** The zero value [time.Time{}]: January 1, year 1, 00:00:00 UTC. *)
Definition zeroTime : Time := -62135596800 * 1000000000.

(** A [time.Duration], in nanoseconds. *)
Definition Duration : Type := Z.

Definition Millisecond : Duration := 1000000.

(** A [context.Context], by what [ctx.Err()] reports when it is consulted:
    [nil], [context.Canceled] or [context.DeadlineExceeded]. *)
Inductive Context : Type :=
| Live
| Canceled
| DeadlineExceeded.

Module Runtime.

(** [rand_src k] is the raw outcome of the [k]-th integer draw from
    [math/rand], [float_src k] the outcome of the [k]-th [rand.Float64],
    [time_src k] the [k]-th reading of the clock; the three cursors count
    the draws and readings made so far, and [slept] lists the durations
    handed to [time.Sleep], most recent first. *)
Record World : Type := mkWorld {
  rand_src : nat → N;
  float_src : nat → float;
  time_src : nat → Time;
  rand_pos : nat;
  float_pos : nat;
  time_pos : nat;
  slept : list Duration
}.

Definition draw_int : St World N := λ w,
  (rand_src w (rand_pos w),
   mkWorld (rand_src w) (float_src w) (time_src w)
           (S (rand_pos w)) (float_pos w) (time_pos w) (slept w)).

(** [rand.Int()]: a non-negative [int]. *)
Definition rand_Int : St World N :=
  r ←$ draw_int; st_ret (r mod 2 ^ 63)%N.

(** [rand.Int31()]: a non-negative 31-bit integer. *)
Definition rand_Int31 : St World N :=
  r ←$ draw_int; st_ret (r mod 2 ^ 31)%N.

(** [rand.Intn(n)]: an integer of [[0, n)]; [n] is positive at every call
    in the services. *)
Definition rand_Intn (n : N) : St World N :=
  r ←$ draw_int; st_ret (r mod n)%N.

(** [rand.Float64()]. *)
Definition rand_Float64 : St World float := λ w,
  (float_src w (float_pos w),
   mkWorld (rand_src w) (float_src w) (time_src w)
           (rand_pos w) (S (float_pos w)) (time_pos w) (slept w)).

(** [time.Now()]. *)
Definition time_Now : St World Time := λ w,
  (time_src w (time_pos w),
   mkWorld (rand_src w) (float_src w) (time_src w)
           (rand_pos w) (float_pos w) (S (time_pos w)) (slept w)).

(** [time.Sleep(d)]. *)
Definition time_Sleep (d : Duration) : St World unit := λ w,
  (tt,
   mkWorld (rand_src w) (float_src w) (time_src w)
           (rand_pos w) (float_pos w) (time_pos w) (d :: slept w)).

End Runtime.

(** ** subscription-service: models *)

Module Models.

Record Subscription : Type := mkSubscription {
  ID : string;
  UserID : string;
  Plan : string;
  StartDate : Time;
  EndDate : Time
}.

(** The zero value [models.Subscription{}]. *)
Definition zeroSubscription : Subscription :=
  mkSubscription "" "" "" zeroTime zeroTime.

Module PaymentRequest.
Record t : Type := mk {
  SubscriptionID : string;
  Amount : float;
  Plan : string
}.
End PaymentRequest.

Module PaymentResponse.
Record t : Type := mk {
  ID : string;
  Status : string;
  Message : string
}.
End PaymentResponse.

Definition GetPlanPrice (plan : string) : float :=
  if decide (plan = "basic") then 10.0%float
  else if decide (plan = "premium") then 20.0%float
  else 0.0%float.

Definition IsValidPlan (plan : string) : bool :=
  bool_decide (plan = "basic") || bool_decide (plan = "premium").

End Models.

(** ** subscription-service: the repository *)

Module Repository.
Import Runtime Models.

(** [subscriptions] is the Go map; the [sync.RWMutex] makes every method
    below one atomic step, so a run of concurrent callers is a sequence
    of these steps in the order the lock was granted. *)
Record SubscriptionRepository : Type := mkRepository {
  subscriptions : gmap string Subscription
}.

Definition NewSubscriptionRepository : SubscriptionRepository :=
  mkRepository ∅.

Section WithCalendar.

(** [t.AddDate(years, months, days)] of package [time]. *)
Variable AddDate : Time → Z → Z → Z → Time.

Definition Create (r : SubscriptionRepository) (userID plan : string)
  : St World (Subscription * SubscriptionRepository) :=
  n ←$ rand_Int;
  start ←$ time_Now;
  now ←$ time_Now;
  let sub := mkSubscription ("sub_" +:+ pretty n) userID plan
                            start (AddDate now 1 0 0) in
  st_ret (sub, mkRepository (<[ID sub := sub]> (subscriptions r))).

(** A run of [Create] calls, one per [(userID, plan)] of [reqs], in the
    order the lock is granted; returns the records handed back to the
    callers. *)
Fixpoint CreateAll (r : SubscriptionRepository)
    (reqs : list (string * string))
  : St World (list Subscription * SubscriptionRepository) :=
  match reqs with
  | [] => st_ret ([], r)
  | (userID, plan) :: reqs =>
      created ←$ Create r userID plan;
      rest ←$ CreateAll created.2 reqs;
      st_ret (created.1 :: rest.1, rest.2)
  end.

End WithCalendar.

(** Go's map iteration order is unspecified; the model enumerates in the
    order of [map_to_list]. *)
Definition GetAll (r : SubscriptionRepository) : list Subscription :=
  (map_to_list (subscriptions r)).*2.

Definition GetByID (r : SubscriptionRepository) (id : string)
  : Subscription * bool :=
  match subscriptions r !! id with
  | Some sub => (sub, true)
  | None => (zeroSubscription, false)
  end.

Definition Update (r : SubscriptionRepository) (id userID plan : string)
  : (Subscription * bool) * SubscriptionRepository :=
  match subscriptions r !! id with
  | None => ((zeroSubscription, false), r)
  | Some sub =>
      let sub := mkSubscription (ID sub) userID plan
                                (StartDate sub) (EndDate sub) in
      ((sub, true), mkRepository (<[id := sub]> (subscriptions r)))
  end.

Definition Delete (r : SubscriptionRepository) (id : string)
  : (Subscription * bool) * SubscriptionRepository :=
  match subscriptions r !! id with
  | None => ((zeroSubscription, false), r)
  | Some sub => ((sub, true), mkRepository (delete id (subscriptions r)))
  end.

Definition Count (r : SubscriptionRepository) : Z :=
  Z.of_nat (size (subscriptions r)).

End Repository.

(** ** subscription-service: the HTTP payment client *)

Module Services.
Import Models.

(** A Go [error], by its message. *)
Definition error : Type := string.

(** The outcome of [client.Do]: a transport error, or a response with
    its status code and what decoding its body as a [PaymentResponse]
    gives. *)
Inductive RoundTrip : Type :=
| TransportError (e : error)
| HttpResponse (status : Z) (body : error + PaymentResponse.t).

(** Package [net/http] and the network behind it, as the client sees
    them: the error, if any, of [http.NewRequestWithContext] for a URL, and
    what [client.Do] returns for a request made under a given context. *)
Record Http : Type := mkHttp {
  new_request_err : string → option error;
  client_Do : Context → string → PaymentRequest.t → RoundTrip
}.

Record PaymentService : Type := mkPaymentService {
  baseURL : string
}.

Definition NewPaymentService (baseURL : string) : PaymentService :=
  mkPaymentService baseURL.

(** [json.Marshal] of a [PaymentRequest] fails exactly on an amount that
    is not a finite number, with an [UnsupportedValueError]; the encoded
    payload is stood for by the request itself. *)
Definition json_Marshal (req : PaymentRequest.t) : error + PaymentRequest.t :=
  if is_nan (PaymentRequest.Amount req) then
    inl "json: unsupported value: NaN"
  else if (PaymentRequest.Amount req =? infinity)%float then
    inl "json: unsupported value: +Inf"
  else if (PaymentRequest.Amount req =? neg_infinity)%float then
    inl "json: unsupported value: -Inf"
  else inr req.

Definition StatusOK : Z := 200.

Definition ProcessPayment (net : Http) (p : PaymentService)
    (ctx : Context) (req : PaymentRequest.t)
  : option PaymentResponse.t * option error :=
  match json_Marshal req with
  | inl e => (None, Some ("failed to marshal payment request: " +:+ e))
  | inr paymentData =>
      match new_request_err net (baseURL p +:+ "/payments") with
      | Some e => (None, Some ("failed to create payment request: " +:+ e))
      | None =>
          match client_Do net ctx (baseURL p +:+ "/payments") paymentData with
          | TransportError e =>
              (None, Some ("failed to send payment request: " +:+ e))
          | HttpResponse status body =>
              if decide (status ≠ StatusOK) then
                (None, Some ("payment failed with status: " +:+ pretty status))
              else
                match body with
                | inl e =>
                    (None, Some ("failed to decode payment response: " +:+ e))
                | inr paymentResp => (Some paymentResp, None)
                end
          end
      end
  end.

End Services.

(** ** subscription-service: the create handlers *)

Module Handlers.
Import Runtime Models Repository Services.

(** The decoded JSON body of a create request. *)
Record ReqData : Type := mkReqData {
  rd_UserID : string;
  rd_Plan : string
}.

(** An inbound request: what decoding its body gives ([None] when the
    decoder reports an error) and its context. *)
Record Request : Type := mkRequest {
  Body : option ReqData;
  ReqContext : Context
}.

(** What the handler writes: [http.Error(w, msg, code)], or the encoded
    subscription (status 200). *)
Inductive Response : Type :=
| HttpError (msg : string) (code : Z)
| Encoded (sub : Subscription).

Definition StatusBadRequest : Z := 400.
Definition StatusInternalServerError : Z := 500.

(** The calls a handler makes on its dependencies, in order. *)
Inductive Call : Type :=
| CallCreate (userID plan : string)
| CallProcessPayment (ctx : Context) (req : PaymentRequest.t)
| CallDelete (id : string).

(** The process a handler runs in: the runtime, [deps.Repository], and
    the record of calls made so far (oldest first). *)
Record Proc : Type := mkProc {
  world : World;
  Repo : SubscriptionRepository;
  calls : list Call
}.

Definition record (c : Call) : St Proc unit :=
  st_modify (λ s, mkProc (world s) (Repo s) (calls s ++ [c])).

Section WithDependencies.

Variable AddDate : Time → Z → Z → Z → Time.
Variable net : Http.
Variable paymentService : PaymentService.

(** [h.deps.Repository.Create(userID, plan)] *)
Definition Repository_Create (userID plan : string)
  : St Proc Subscription := λ s,
  let '((sub, r), w) := Create AddDate (Repo s) userID plan (world s) in
  (sub, mkProc w r (calls s ++ [CallCreate userID plan])).

(** [h.deps.Repository.Delete(id)] *)
Definition Repository_Delete (id : string)
  : St Proc (Subscription * bool) := λ s,
  let '(res, r) := Delete (Repo s) id in
  (res, mkProc (world s) r (calls s ++ [CallDelete id])).

(** [h.deps.PaymentService.ProcessPayment(ctx, req)] *)
Definition PaymentService_ProcessPayment (ctx : Context)
    (req : PaymentRequest.t)
  : St Proc (option PaymentResponse.t * option error) :=
  record (CallProcessPayment ctx req) ;;$
  st_ret (ProcessPayment net paymentService ctx req).

(** [TracingV3.TraceOperation]: runs the operation under a span of the
    given context and returns its error. *)
Definition TraceOperation {S} (ctx : Context)
    (operation : Context → St S (option error)) : St S (option error) :=
  operation ctx.

Definition V1_createSubscription (r : Request) : St Proc Response :=
  match Body r with
  | None => st_ret (HttpError "Bad request" StatusBadRequest)
  | Some reqData =>
      if bool_decide (rd_UserID reqData = "")
         || bool_decide (rd_Plan reqData = "") then
        st_ret (HttpError "Missing required fields" StatusBadRequest)
      else if negb (IsValidPlan (rd_Plan reqData)) then
        st_ret (HttpError "Invalid plan" StatusBadRequest)
      else
        sub ←$ Repository_Create (rd_UserID reqData) (rd_Plan reqData);
        let paymentReq :=
          PaymentRequest.mk (ID sub) (GetPlanPrice (Plan sub)) (Plan sub) in
        let ctx := ReqContext r in
        res ←$ PaymentService_ProcessPayment ctx paymentReq;
        match res.2 with
        | Some err =>
            st_ret (HttpError "Payment processing failed"
                              StatusInternalServerError)
        | None => st_ret (Encoded sub)
        end
  end.

Definition V2_createSubscription (r : Request) : St Proc Response :=
  match Body r with
  | None => st_ret (HttpError "Bad request" StatusBadRequest)
  | Some reqData =>
      if bool_decide (rd_UserID reqData = "")
         || bool_decide (rd_Plan reqData = "") then
        st_ret (HttpError "Missing required fields" StatusBadRequest)
      else if negb (IsValidPlan (rd_Plan reqData)) then
        st_ret (HttpError "Invalid plan" StatusBadRequest)
      else
        sub ←$ Repository_Create (rd_UserID reqData) (rd_Plan reqData);
        let paymentReq :=
          PaymentRequest.mk (ID sub) (GetPlanPrice (Plan sub)) (Plan sub) in
        res ←$ PaymentService_ProcessPayment (ReqContext r) paymentReq;
        match res.2 with
        | Some err =>
            Repository_Delete (ID sub) ;;$
            st_ret (HttpError "Payment processing failed"
                              StatusInternalServerError)
        | None => st_ret (Encoded sub)
        end
  end.

Definition V3_createSubscription (r : Request) : St Proc Response :=
  let ctx := ReqContext r in
  match Body r with
  | None => st_ret (HttpError "Bad request" StatusBadRequest)
  | Some reqData =>
      if bool_decide (rd_UserID reqData = "")
         || bool_decide (rd_Plan reqData = "") then
        st_ret (HttpError "Missing required fields" StatusBadRequest)
      else if negb (IsValidPlan (rd_Plan reqData)) then
        st_ret (HttpError "Invalid plan" StatusBadRequest)
      else
        sub ←$ Repository_Create (rd_UserID reqData) (rd_Plan reqData);
        let paymentReq :=
          PaymentRequest.mk (ID sub) (GetPlanPrice (Plan sub)) (Plan sub) in
        paymentErr ←$ TraceOperation ctx (λ ctx,
          res ←$ PaymentService_ProcessPayment ctx paymentReq;
          st_ret res.2);
        match paymentErr with
        | Some err =>
            Repository_Delete (ID sub) ;;$
            st_ret (HttpError "Payment processing failed"
                              StatusInternalServerError)
        | None => st_ret (Encoded sub)
        end
  end.

End WithDependencies.

End Handlers.

(** ** payment-service: models *)

Module PaymentModels.
Import Runtime.

Module PaymentRequest.
Record t : Type := mk {
  SubscriptionID : string;
  Amount : float;
  Plan : string;
  Currency : string;
  Method : string
}.
End PaymentRequest.

Module PaymentResponse.
Record t : Type := mk {
  ID : string;
  Status : string;
  Amount : float;
  Currency : string;
  ProcessedAt : Time;
  Fees : float
}.
End PaymentResponse.

Module PaymentError.
Record t : Type := mk {
  Code : string;
  Message : string;
  Type_ : string
}.
End PaymentError.

Definition StatusCompleted : string := "completed".
Definition StatusFailed : string := "failed".
Definition StatusPending : string := "pending".
Definition StatusCancelled : string := "cancelled".

Definition ErrorTypeInsufficientFunds : string := "insufficient_funds".
Definition ErrorTypeInvalidCard : string := "invalid_card".
Definition ErrorTypeNetworkError : string := "network_error".
Definition ErrorTypeProcessingError : string := "processing_error".
Definition ErrorTypeTimeout : string := "timeout".

(** [nil] is [None]. *)
Definition ValidatePaymentRequest (req : PaymentRequest.t)
  : option PaymentError.t :=
  if decide (PaymentRequest.SubscriptionID req = "") then
    Some (PaymentError.mk "MISSING_SUBSCRIPTION_ID"
                          "subscription ID is required"
                          "validation_error")
  else if (PaymentRequest.Amount req <=? 0)%float then
    Some (PaymentError.mk "INVALID_AMOUNT"
                          "amount must be greater than 0"
                          "validation_error")
  else if decide (PaymentRequest.Plan req = "") then
    Some (PaymentError.mk "MISSING_PLAN"
                          "plan is required"
                          "validation_error")
  else None.

Definition GeneratePaymentID : St World string :=
  now ←$ time_Now;
  r ←$ rand_Int31;
  st_ret ("pmt_" +:+ pretty now +:+ "_" +:+ pretty r).

Definition CalculateFees (amount : float) (plan : string) : float :=
  let baseRate :=
    if decide (plan = "premium") then 0.025%float
    else if decide (plan = "enterprise") then 0.02%float
    else 0.029%float in
  let fee := (amount * baseRate)%float in
  if (fee <? 0.30)%float then 0.30%float else fee.

Definition ShouldSimulateFailure (failureRate : float) : St World bool :=
  f ←$ rand_Float64;
  st_ret (f <? failureRate)%float.

Definition failures : list PaymentError.t :=
  [ PaymentError.mk "INSUFFICIENT_FUNDS" "insufficient funds in account"
                    ErrorTypeInsufficientFunds;
    PaymentError.mk "INVALID_CARD" "invalid or expired card"
                    ErrorTypeInvalidCard;
    PaymentError.mk "NETWORK_ERROR" "network connection failed"
                    ErrorTypeNetworkError;
    PaymentError.mk "PROCESSING_ERROR"
                    "payment processor temporarily unavailable"
                    ErrorTypeProcessingError;
    PaymentError.mk "TIMEOUT" "payment processing timeout"
                    ErrorTypeTimeout ].

(** [failures[rand.Intn(len(failures))]]; the index is always in range,
    so the default of the lookup is never returned. *)
Definition GetRandomFailureType : St World PaymentError.t :=
  i ←$ rand_Intn (N.of_nat (length failures));
  st_ret (default (PaymentError.mk "" "" "") (failures !! N.to_nat i)).

End PaymentModels.

(** ** payment-service: the simulated processor *)

Module PaymentProcessor.
Import Runtime PaymentModels.

(** The fields of [config.Config] the processor reads. *)
Record Config : Type := mkConfig {
  ProcessingDelay : Duration;
  EnableFailures : bool;
  FailureRate : float
}.

Record PaymentProcessor : Type := mkPaymentProcessor {
  config : Config
}.

Definition getCurrency (req : PaymentRequest.t) : string :=
  if decide (PaymentRequest.Currency req ≠ "") then
    PaymentRequest.Currency req
  else "USD".

(** [p.tracer.Start(ctx, ...)] derives the span's context from [ctx]; it
    is not consulted afterwards. *)
Definition ProcessPayment (p : PaymentProcessor) (ctx : Context)
    (req : PaymentRequest.t)
  : St World (option PaymentResponse.t * option PaymentError.t) :=
  match ValidatePaymentRequest req with
  | Some err => st_ret (None, Some err)
  | None =>
      (if 0 <? ProcessingDelay (config p)
       then time_Sleep (ProcessingDelay (config p))
       else st_ret tt) ;;$
      simulate ←$ (if EnableFailures (config p)
                   then ShouldSimulateFailure (FailureRate (config p))
                   else st_ret false);
      if simulate then
        failure ←$ GetRandomFailureType;
        id ←$ GeneratePaymentID;
        processedAt ←$ time_Now;
        st_ret (Some (PaymentResponse.mk id StatusFailed
                        (PaymentRequest.Amount req) (getCurrency req)
                        processedAt 0%float),
                Some failure)
      else
        id ←$ GeneratePaymentID;
        processedAt ←$ time_Now;
        let response :=
          PaymentResponse.mk id StatusCompleted
            (PaymentRequest.Amount req) (getCurrency req) processedAt
            (CalculateFees (PaymentRequest.Amount req)
                           (PaymentRequest.Plan req)) in
        f ←$ rand_Float64;
        (if (f <? 0.1)%float then
           n ←$ rand_Intn 200;
           time_Sleep (Z.of_N n * Millisecond)
         else st_ret tt) ;;$
        st_ret (Some response, None)
  end.

End PaymentProcessor.

(** ** Vocabulary of the properties *)

Module StoreSpec.
Import Runtime Models Repository.

(** Every record sits under the key that is its own identifier. *)
Definition keyed (r : SubscriptionRepository) : Prop :=
  ∀ k sub, subscriptions r !! k = Some sub → ID sub = k.

(** The identifier the [i]-th next [Create] allocates in world [w]. *)
Definition drawn_id (w : World) (i : nat) : string :=
  "sub_" +:+ pretty (rand_src w (i + rand_pos w) mod 2 ^ 63)%N.

Definition drawn_ids (w : World) (n : nat) : list string :=
  drawn_id w <$> seq 0 n.

(** The world after one [Create]: one integer drawn, the clock read
    twice. *)
Definition after_Create (w : World) : World :=
  mkWorld (rand_src w) (float_src w) (time_src w)
          (S (rand_pos w)) (float_pos w) (S (S (time_pos w))) (slept w).

Section WithCalendar.

Variable AddDate : Time → Z → Z → Z → Time.

(** The record the next [Create] builds in world [w]. *)
Definition created (w : World) (userID plan : string) : Subscription :=
  mkSubscription (drawn_id w 0) userID plan
                 (time_src w (time_pos w))
                 (AddDate (time_src w (S (time_pos w))) 1 0 0).

End WithCalendar.

End StoreSpec.

Module WorkflowSpec.
Import Runtime Models Repository Services Handlers StoreSpec.

Section WithDependencies.

Variable AddDate : Time → Z → Z → Z → Time.
Variable net : Http.
Variable paymentService : PaymentService.

(** The process once the record is provisioned. *)
Definition provisioned (s : Proc) (userID plan : string) : Proc :=
  mkProc (after_Create (world s))
         (mkRepository
            (<[drawn_id (world s) 0 := created AddDate (world s) userID plan]>
               (subscriptions (Repo s))))
         (calls s ++ [CallCreate userID plan]).

(** The payment request the workflow derives from the record. *)
Definition charge (s : Proc) (plan : string) : PaymentRequest.t :=
  PaymentRequest.mk (drawn_id (world s) 0) (GetPlanPrice plan) plan.

(** The process once the payment service has been called. *)
Definition charged (s : Proc) (ctx : Context) (userID plan : string)
  : Proc :=
  mkProc (after_Create (world s))
         (Repo (provisioned s userID plan))
         (calls s ++ [CallCreate userID plan;
                      CallProcessPayment ctx (charge s plan)]).

(** The process once the compensating delete has run. *)
Definition compensated (s : Proc) (ctx : Context) (userID plan : string)
  : Proc :=
  mkProc (after_Create (world s))
         (mkRepository (delete (drawn_id (world s) 0)
                               (subscriptions (Repo s))))
         (calls s ++ [CallCreate userID plan;
                      CallProcessPayment ctx (charge s plan);
                      CallDelete (drawn_id (world s) 0)]).

(** What the payment client answers to the workflow's request. *)
Definition outcome (s : Proc) (ctx : Context) (plan : string)
  : option PaymentResponse.t * option error :=
  ProcessPayment net paymentService ctx (charge s plan).

(** A well-formed request passes the handlers' checks. *)
Definition well_formed (r : Request) (userID plan : string) : Prop :=
  Body r = Some (mkReqData userID plan)
  ∧ userID ≠ ""
  ∧ IsValidPlan plan = true.

End WithDependencies.

End WorkflowSpec.

Module PaymentSpec.
Import Runtime PaymentModels PaymentProcessor.

(** The fee rate by plan, as the specification words it: 2.9% by
    default, 2.5% for "premium", 2.0% for "enterprise". *)
Definition fee_rate (plan : string) : float :=
  if decide (plan = "premium") then 0.025%float
  else if decide (plan = "enterprise") then 0.02%float
  else 0.029%float.

Definition validation_failure (req : PaymentRequest.t) : Prop :=
  PaymentRequest.SubscriptionID req = ""
  ∨ (PaymentRequest.Amount req <=? 0)%float = true
  ∨ PaymentRequest.Plan req = "".

Definition failure_kinds : list string :=
  [ErrorTypeInsufficientFunds; ErrorTypeInvalidCard; ErrorTypeNetworkError;
   ErrorTypeProcessingError; ErrorTypeTimeout].

End PaymentSpec.

(** ** Concrete runs *)

Module Samples.
Import Runtime Models Repository Services Handlers.

(** A stand-in for [Time.AddDate] in the concrete runs: years of 365 and
    months of 30 days. *)
Definition sample_AddDate (t : Time) (years months days : Z) : Time :=
  t + (years * 365 + months * 30 + days) * 86400 * 1000000000.

(** A world whose every integer draw is [n] and every [rand.Float64] is
    one half. *)
Definition world_const (n : N) : World :=
  mkWorld (λ _, n) (λ _, 0.5%float)
          (λ k, 1700000000000000000 + Z.of_nat k) 0 0 0 [].

(** A world whose [k]-th integer draw is [k]. *)
Definition world_count : World :=
  mkWorld N.of_nat (λ _, 0.5%float)
          (λ k, 1700000000000000000 + Z.of_nat k) 0 0 0 [].

Definition sample_sub : Subscription :=
  mkSubscription "sub_7" "u1" "basic" 100 200.

Definition sample_repo : SubscriptionRepository :=
  mkRepository {[ "sub_7" := sample_sub ]}.

Definition svc : PaymentService :=
  NewPaymentService "http://payment-service:8081".

(** A network on which every round trip fails. *)
Definition net_down : Http :=
  mkHttp (λ _, None) (λ _ _ _, TransportError "connection refused").

(** A network behind which every payment completes. *)
Definition net_up : Http :=
  mkHttp (λ _, None)
         (λ _ _ _, HttpResponse 200
                     (inr (PaymentResponse.mk "pmt_1" "completed" ""))).

Definition create_u1_premium : Request :=
  mkRequest (Some (mkReqData "u1" "premium")) Live.

Definition three_creates : list (string * string) :=
  [("u1", "basic"); ("u2", "premium"); ("u3", "basic")].

Definition two_creates : list (string * string) :=
  [("u1", "premium"); ("u2", "basic")].

Definition proc_new : Proc :=
  mkProc (world_const 5) NewSubscriptionRepository [].

Definition proc_sub_7 : Proc :=
  mkProc (world_const 7) sample_repo [].



End Samples.

Module PaymentSamples.
Import Runtime PaymentModels PaymentProcessor.

Definition always_failing : PaymentProcessor :=
  mkPaymentProcessor (mkConfig (100 * Millisecond) true 1.0%float).

Definition never_failing : PaymentProcessor :=
  mkPaymentProcessor (mkConfig (100 * Millisecond) false 0.1%float).

Definition pay_premium : PaymentRequest.t :=
  PaymentRequest.mk "sub_5" 20.0%float "premium" "" "".

Definition pay_nothing : PaymentRequest.t :=
  PaymentRequest.mk "sub_5" 0.0%float "premium" "" "".

End PaymentSamples.

(** ** subscription-service: the read, update and delete handlers *)

Module Routes.
Import Runtime Models Repository Services Handlers.

(** What any handler of the service writes: [http.Error], one encoded
    subscription, the encoded list of [GetAll], or [204 No Content]. *)
Inductive Reply : Type :=
| ReplyError (msg : string) (code : Z)
| ReplySubscription (sub : Subscription)
| ReplySubscriptions (subs : list Subscription)
| ReplyNoContent.

Definition StatusNotFound : Z := 404.
Definition StatusMethodNotAllowed : Z := 405.

Definition reply_of (resp : Response) : Reply :=
  match resp with
  | HttpError msg code => ReplyError msg code
  | Encoded sub => ReplySubscription sub
  end.

(** The read, update and delete handlers use [deps.Repository] only; they
    are steps on the repository. *)

Definition V1_getSubscriptions (r : SubscriptionRepository) : Reply :=
  ReplySubscriptions (GetAll r).

Definition V2_getSubscriptions (r : SubscriptionRepository) : Reply :=
  let count := Count r in
  ReplySubscriptions (GetAll r).

Definition V3_getSubscriptions (r : SubscriptionRepository) : Reply :=
  let count := Count r in
  ReplySubscriptions (GetAll r).

Definition V1_getSubscription (r : SubscriptionRepository) (id : string)
  : Reply :=
  let '(sub, exists_) := GetByID r id in
  if negb exists_ then ReplyError "Not found" StatusNotFound
  else ReplySubscription sub.

Definition V2_getSubscription (r : SubscriptionRepository) (id : string)
  : Reply :=
  let '(sub, exists_) := GetByID r id in
  if negb exists_ then ReplyError "Not found" StatusNotFound
  else ReplySubscription sub.

Definition V3_getSubscription (r : SubscriptionRepository) (id : string)
  : Reply :=
  let '(sub, exists_) := GetByID r id in
  if negb exists_ then ReplyError "Not found" StatusNotFound
  else ReplySubscription sub.

Definition V1_updateSubscription (r : SubscriptionRepository)
    (body : option ReqData) (id : string)
  : Reply * SubscriptionRepository :=
  match body with
  | None => (ReplyError "Bad request" StatusBadRequest, r)
  | Some reqData =>
      if negb (IsValidPlan (rd_Plan reqData)) then
        (ReplyError "Invalid plan" StatusBadRequest, r)
      else
        let '((sub, exists_), r) :=
          Update r id (rd_UserID reqData) (rd_Plan reqData) in
        if negb exists_ then (ReplyError "Not found" StatusNotFound, r)
        else (ReplySubscription sub, r)
  end.

Definition V2_updateSubscription (r : SubscriptionRepository)
    (body : option ReqData) (id : string)
  : Reply * SubscriptionRepository :=
  match body with
  | None => (ReplyError "Bad request" StatusBadRequest, r)
  | Some reqData =>
      if negb (IsValidPlan (rd_Plan reqData)) then
        (ReplyError "Invalid plan" StatusBadRequest, r)
      else
        let '(oldSub, exists_) := GetByID r id in
        if negb exists_ then (ReplyError "Not found" StatusNotFound, r)
        else
          let '((sub, _), r) :=
            Update r id (rd_UserID reqData) (rd_Plan reqData) in
          (ReplySubscription sub, r)
  end.

Definition V3_updateSubscription (r : SubscriptionRepository)
    (body : option ReqData) (id : string)
  : Reply * SubscriptionRepository :=
  match body with
  | None => (ReplyError "Bad request" StatusBadRequest, r)
  | Some reqData =>
      if negb (IsValidPlan (rd_Plan reqData)) then
        (ReplyError "Invalid plan" StatusBadRequest, r)
      else
        let '(oldSub, exists_) := GetByID r id in
        if negb exists_ then (ReplyError "Not found" StatusNotFound, r)
        else
          let '((sub, _), r) :=
            Update r id (rd_UserID reqData) (rd_Plan reqData) in
          (ReplySubscription sub, r)
  end.

Definition V1_deleteSubscription (r : SubscriptionRepository) (id : string)
  : Reply * SubscriptionRepository :=
  let '((_, exists_), r) := Delete r id in
  if negb exists_ then (ReplyError "Not found" StatusNotFound, r)
  else (ReplyNoContent, r).

Definition V2_deleteSubscription (r : SubscriptionRepository) (id : string)
  : Reply * SubscriptionRepository :=
  let '((sub, exists_), r) := Delete r id in
  if negb exists_ then (ReplyError "Not found" StatusNotFound, r)
  else (ReplyNoContent, r).

Definition V3_deleteSubscription (r : SubscriptionRepository) (id : string)
  : Reply * SubscriptionRepository :=
  let '((sub, exists_), r) := Delete r id in
  if negb exists_ then (ReplyError "Not found" StatusNotFound, r)
  else
    let low := Count r <? 10 in
    (ReplyNoContent, r).

(** An inbound request with its method and URL path. *)
Record Inbound : Type := mkInbound {
  Method : string;
  URLPath : string;
  Payload : Request
}.

(** [path[len(prefix):]]; the mux hands a by-id handler only paths that
    start with its prefix, so the slice is always in bounds. *)
Definition path_after (prefix path : string) : string :=
  String.substring (String.length prefix)
            (String.length path - String.length prefix) path.

(** A step on the repository, run in the process. *)
Definition on_repository
    (f : SubscriptionRepository → Reply * SubscriptionRepository)
  : St Proc Reply := λ s,
  let '(reply, r) := f (Repo s) in (reply, mkProc (world s) r (calls s)).

Definition reading (f : SubscriptionRepository → Reply) : St Proc Reply :=
  λ s, (f (Repo s), s).

Definition method_not_allowed : St Proc Reply :=
  st_ret (ReplyError "Method not allowed" StatusMethodNotAllowed).

Section WithDependencies.

Variable AddDate : Time → Z → Z → Z → Time.
Variable net : Http.
Variable paymentService : PaymentService.

Definition V1_HandleSubscriptions (r : Inbound) : St Proc Reply :=
  if decide (Method r = "POST") then
    resp ←$ V1_createSubscription AddDate net paymentService (Payload r);
    st_ret (reply_of resp)
  else if decide (Method r = "GET") then reading V1_getSubscriptions
  else method_not_allowed.

Definition V1_HandleSubscriptionByID (r : Inbound) : St Proc Reply :=
  let id := path_after "/v1/subscriptions/" (URLPath r) in
  if decide (Method r = "GET") then reading (λ repo, V1_getSubscription repo id)
  else if decide (Method r = "PUT") then
    on_repository (λ repo, V1_updateSubscription repo (Body (Payload r)) id)
  else if decide (Method r = "DELETE") then
    on_repository (λ repo, V1_deleteSubscription repo id)
  else method_not_allowed.

Definition V2_HandleSubscriptions (r : Inbound) : St Proc Reply :=
  if decide (Method r = "POST") then
    resp ←$ V2_createSubscription AddDate net paymentService (Payload r);
    st_ret (reply_of resp)
  else if decide (Method r = "GET") then reading V2_getSubscriptions
  else method_not_allowed.

Definition V2_HandleSubscriptionByID (r : Inbound) : St Proc Reply :=
  let id := path_after "/v2/subscriptions/" (URLPath r) in
  if decide (Method r = "GET") then reading (λ repo, V2_getSubscription repo id)
  else if decide (Method r = "PUT") then
    on_repository (λ repo, V2_updateSubscription repo (Body (Payload r)) id)
  else if decide (Method r = "DELETE") then
    on_repository (λ repo, V2_deleteSubscription repo id)
  else method_not_allowed.

Definition V3_HandleSubscriptions (r : Inbound) : St Proc Reply :=
  if decide (Method r = "POST") then
    resp ←$ V3_createSubscription AddDate net paymentService (Payload r);
    st_ret (reply_of resp)
  else if decide (Method r = "GET") then reading V3_getSubscriptions
  else method_not_allowed.

Definition V3_HandleSubscriptionByID (r : Inbound) : St Proc Reply :=
  let id := path_after "/v3/subscriptions/" (URLPath r) in
  if decide (Method r = "GET") then reading (λ repo, V3_getSubscription repo id)
  else if decide (Method r = "PUT") then
    on_repository (λ repo, V3_updateSubscription repo (Body (Payload r)) id)
  else if decide (Method r = "DELETE") then
    on_repository (λ repo, V3_deleteSubscription repo id)
  else method_not_allowed.

(** The six handlers that [RegisterV1Routes], [RegisterV2Routes] and
    [RegisterV3Routes] install. *)
Inductive Route : Type :=
| V1_subscriptions | V1_subscription_by_id
| V2_subscriptions | V2_subscription_by_id
| V3_subscriptions | V3_subscription_by_id.

Definition handler_of (route : Route) : Inbound → St Proc Reply :=
  match route with
  | V1_subscriptions => V1_HandleSubscriptions
  | V1_subscription_by_id => V1_HandleSubscriptionByID
  | V2_subscriptions => V2_HandleSubscriptions
  | V2_subscription_by_id => V2_HandleSubscriptionByID
  | V3_subscriptions => V3_HandleSubscriptions
  | V3_subscription_by_id => V3_HandleSubscriptionByID
  end.

(** The requests of [reqs] served one after the other, each by the handler
    of its route. *)
Fixpoint serve (reqs : list (Route * Inbound)) : St Proc (list Reply) :=
  match reqs with
  | [] => st_ret []
  | (route, r) :: reqs =>
      reply ←$ handler_of route r;
      replies ←$ serve reqs;
      st_ret (reply :: replies)
  end.

End WithDependencies.

End Routes.

(** ** payment-service: the HTTP handlers *)

Module PaymentHandlers.
Import Runtime PaymentModels PaymentProcessor.

(** A Go [error] as [handlePaymentError] sees it: a value of dynamic type
    [models.PaymentError], or an error of another type. *)
Inductive GoError : Type :=
| IsPaymentError (e : PaymentError.t)
| OtherError (msg : string).

(** The body a handler writes: the text of [http.Error], the JSON object
    of a payment error, the encoded [PaymentResponse], or the health
    report with its timestamp. *)
Inductive AnswerBody : Type :=
| Text (msg : string)
| ErrorJSON (code message type_ : string)
| PaymentJSON (resp : PaymentResponse.t)
| HealthJSON (timestamp : Time).

Record Answer : Type := mkAnswer {
  status : Z;
  body : AnswerBody
}.

(** What running a handler comes to: an answer, or a panic (a nil pointer
    dereferenced). *)
Inductive Outcome : Type :=
| Answered (a : Answer)
| Panicked.

Definition StatusOK : Z := 200.
Definition StatusBadRequest : Z := 400.
Definition StatusMethodNotAllowed : Z := 405.
Definition StatusInternalServerError : Z := 500.
Definition StatusServiceUnavailable : Z := 503.

(** An inbound request: its method, what decoding its body as a
    [PaymentRequest] gives ([None] when the decoder reports an error), and
    its context. *)
Record Inbound : Type := mkInbound {
  Method : string;
  Body : option PaymentRequest.t;
  ReqContext : Context
}.

Definition handlePaymentError (err : GoError) : Answer :=
  match err with
  | IsPaymentError paymentErr =>
      let status :=
        if bool_decide (PaymentError.Type_ paymentErr = ErrorTypeProcessingError)
           || bool_decide (PaymentError.Type_ paymentErr = ErrorTypeNetworkError)
           || bool_decide (PaymentError.Type_ paymentErr = ErrorTypeTimeout)
        then StatusInternalServerError
        else StatusBadRequest in
      mkAnswer status
               (ErrorJSON (PaymentError.Code paymentErr)
                          (PaymentError.Message paymentErr)
                          (PaymentError.Type_ paymentErr))
  | OtherError _ =>
      mkAnswer StatusInternalServerError (Text "Payment processing failed")
  end.

(** [PaymentHandler.ProcessPayment]; after the error check the handler
    reads [response.ID], which panics on a nil response. *)
Definition HandleProcessPayment (p : PaymentProcessor) (r : Inbound)
  : St World Outcome :=
  if decide (Method r ≠ "POST") then
    st_ret (Answered (mkAnswer StatusMethodNotAllowed
                               (Text "Method not allowed")))
  else
    match Body r with
    | None =>
        st_ret (Answered (mkAnswer StatusBadRequest (Text "Invalid JSON")))
    | Some req =>
        res ←$ ProcessPayment p (ReqContext r) req;
        match res.2 with
        | Some err =>
            st_ret (Answered (handlePaymentError (IsPaymentError err)))
        | None =>
            match res.1 with
            | Some response =>
                st_ret (Answered (mkAnswer StatusOK (PaymentJSON response)))
            | None => st_ret Panicked
            end
        end
    end.

(** [PaymentProcessor.HealthCheck] *)
Definition Processor_HealthCheck (p : PaymentProcessor) (ctx : Context)
  : St World (option GoError) :=
  time_Sleep (10 * Millisecond) ;;$
  st_ret None.

(** [PaymentHandler.HealthCheck] *)
Definition HandleHealthCheck (p : PaymentProcessor) (r : Inbound)
  : St World Outcome :=
  err ←$ Processor_HealthCheck p (ReqContext r);
  match err with
  | Some _ =>
      st_ret (Answered (mkAnswer StatusServiceUnavailable
                                 (Text "Service unhealthy")))
  | None =>
      now ←$ time_Now;
      st_ret (Answered (mkAnswer StatusOK (HealthJSON now)))
  end.


End PaymentHandlers.

(** ** Between the two services *)

Module Wire.
Import Runtime.

(** The request the payment service decodes from what the subscription
    service encodes: the three fields carry over by their JSON names, the
    two others keep their zero value. *)
Definition wire_request (req : Models.PaymentRequest.t)
  : PaymentModels.PaymentRequest.t :=
  PaymentModels.PaymentRequest.mk
    (Models.PaymentRequest.SubscriptionID req)
    (Models.PaymentRequest.Amount req)
    (Models.PaymentRequest.Plan req) "" "".

(** The response the subscription service decodes from what the payment
    service encodes: [id] and [status] carry over, there is no [message]. *)
Definition wire_response (resp : PaymentModels.PaymentResponse.t)
  : Models.PaymentResponse.t :=
  Models.PaymentResponse.mk
    (PaymentModels.PaymentResponse.ID resp)
    (PaymentModels.PaymentResponse.Status resp) "".

(** The round trip brings back the answer [a] of the payment service:
    its status code, and for an encoded payment the decoded response. *)
Definition delivers (net : Services.Http) (ctx : Context) (url : string)
    (req : Models.PaymentRequest.t) (a : PaymentHandlers.Answer) : Prop :=
  ∃ body,
    Services.client_Do net ctx url req
      = Services.HttpResponse (PaymentHandlers.status a) body
    ∧ ∀ resp, PaymentHandlers.body a = PaymentHandlers.PaymentJSON resp →
        body = inr (wire_response resp).

End Wire.

(** ** Vocabulary of the further properties *)

Module RoutesSpec.
Import Runtime Models Repository Services Handlers Routes.

(** A create request the handlers turn down: its body does not decode, or
    the user id is empty, or the plan is not a recognised one (the empty
    plan included). *)
Definition rejected (r : Request) : Prop :=
  Body r = None
  ∨ ∃ reqData, Body r = Some reqData
      ∧ (rd_UserID reqData = "" ∨ IsValidPlan (rd_Plan reqData) = false).

(** Every record sits under its own identifier, that identifier is
    ["sub_"] followed by a number below [2^63], and its plan is a
    recognised one. *)
Definition store_ok (r : SubscriptionRepository) : Prop :=
  ∀ k sub, subscriptions r !! k = Some sub →
    ID sub = k
    ∧ IsValidPlan (Plan sub) = true
    ∧ ∃ n : N, (n < 2 ^ 63)%N ∧ k = "sub_" +:+ pretty n.

(** The methods a route answers. *)
Definition supported (route : Route) (method : string) : Prop :=
  match route with
  | V1_subscriptions | V2_subscriptions | V3_subscriptions =>
      method = "POST" ∨ method = "GET"
  | V1_subscription_by_id | V2_subscription_by_id | V3_subscription_by_id =>
      method = "GET" ∨ method = "PUT" ∨ method = "DELETE"
  end.

(** The three generations of the API, each with its collection route,
    its by-id route and the path prefix of the latter. *)
Inductive Version : Type := V1 | V2 | V3.

Definition collection (v : Version) : Route :=
  match v with
  | V1 => V1_subscriptions
  | V2 => V2_subscriptions
  | V3 => V3_subscriptions
  end.

Definition by_id (v : Version) : Route :=
  match v with
  | V1 => V1_subscription_by_id
  | V2 => V2_subscription_by_id
  | V3 => V3_subscription_by_id
  end.

Definition by_id_prefix (v : Version) : string :=
  match v with
  | V1 => "/v1/subscriptions/"
  | V2 => "/v2/subscriptions/"
  | V3 => "/v3/subscriptions/"
  end.

End RoutesSpec.

Module ProcessorSpec.
Import Runtime PaymentModels PaymentProcessor.

(** What the configured delay adds to the record of sleeps. *)
Definition delay_naps (p : PaymentProcessor) : list Duration :=
  if 0 <? ProcessingDelay (config p) then [ProcessingDelay (config p)]
  else [].

(** The time slept in all, in nanoseconds. *)
Definition total (naps : list Duration) : Z := foldr Z.add 0 naps.

(** An error type that [handlePaymentError] reports as the caller's
    mistake (400), and one it reports as the server's (500). *)
Definition caller_side (type_ : string) : Prop :=
  type_ = "validation_error"
  ∨ type_ = ErrorTypeInsufficientFunds
  ∨ type_ = ErrorTypeInvalidCard.

Definition server_side (type_ : string) : Prop :=
  type_ = ErrorTypeNetworkError
  ∨ type_ = ErrorTypeProcessingError
  ∨ type_ = ErrorTypeTimeout.

End ProcessorSpec.

Module IdentifierSpec.

(** The character [c] does not occur in [s]. *)
Fixpoint free_of (c : Ascii.ascii) (s : string) : Prop :=
  match s with
  | EmptyString => True
  | String a s => a ≠ c ∧ free_of c s
  end.

End IdentifierSpec.

(** ** Further concrete runs *)

Module MoreSamples.
Import Runtime Wire.

(** A network whose every round trip is answered by the payment handler of
    processor [p] run in world [w]. *)
Definition served_by (p : PaymentProcessor.PaymentProcessor) (w : World)
  : Services.Http :=
  Services.mkHttp (λ _, None)
    (λ ctx _ req,
       match (PaymentHandlers.HandleProcessPayment p
                (PaymentHandlers.mkInbound "POST" (Some (wire_request req))
                                           ctx) w).1 with
       | PaymentHandlers.Answered a =>
           Services.HttpResponse (PaymentHandlers.status a)
             match PaymentHandlers.body a with
             | PaymentHandlers.PaymentJSON resp => inr (wire_response resp)
             | _ => inl "unexpected body"
             end
       | PaymentHandlers.Panicked => Services.TransportError "EOF"
       end).

Definition pay_nan : PaymentModels.PaymentRequest.t :=
  PaymentModels.PaymentRequest.mk "sub_5" nan "premium" "" "".

Definition post_premium : PaymentHandlers.Inbound :=
  PaymentHandlers.mkInbound "POST" (Some PaymentSamples.pay_premium) Live.

End MoreSamples.

(** * Properties *)

(** ** The repository *)

Module RepositoryFacts.
Import Runtime Models Repository StoreSpec Samples.

Lemma GetByID_found r id sub :
  GetByID r id = (sub, true) ↔ subscriptions r !! id = Some sub.
Proof.
  unfold GetByID. destruct (subscriptions r !! id); split; intros H;
    by simplify_eq.
Qed.

Lemma GetByID_absent r id :
  (GetByID r id).2 = false ↔ subscriptions r !! id = None.
Proof.
  unfold GetByID. destruct (subscriptions r !! id); split; intros H;
    by simplify_eq.
Qed.

(** C7: [Update] of a present record replaces its user and plan, keeps
    its identifier, start and end, and leaves every other record of the
    store as it was. *)
Theorem Update_changes_only_user_and_plan r id sub newUser newPlan :
  GetByID r id = (sub, true) →
  ∃ r',
    Update r id newUser newPlan =
      ((mkSubscription (ID sub) newUser newPlan
                       (StartDate sub) (EndDate sub), true), r')
    ∧ GetByID r' id =
        (mkSubscription (ID sub) newUser newPlan
                        (StartDate sub) (EndDate sub), true)
    ∧ (∀ j, j ≠ id → GetByID r' j = GetByID r j)
    ∧ Count r' = Count r.
Proof.
  intros Hget. apply GetByID_found in Hget.
  unfold Update. rewrite Hget. eexists; split; [reflexivity|].
  split; [|split].
  - apply GetByID_found. cbn. apply lookup_insert_eq.
  - intros j Hj. unfold GetByID. cbn. by rewrite lookup_insert_ne.
  - unfold Count. cbn. f_equal.
    apply map_size_insert_Some. by exists sub.
Qed.

Lemma Update_changes_only_user_and_plan_witness :
  ∃ r',
    Update sample_repo "sub_7" "u2" "premium" =
      ((mkSubscription "sub_7" "u2" "premium" 100 200, true), r')
    ∧ GetByID r' "sub_7" =
        (mkSubscription "sub_7" "u2" "premium" 100 200, true)
    ∧ (∀ j, j ≠ "sub_7" → GetByID r' j = GetByID sample_repo j)
    ∧ Count r' = Count sample_repo.
Proof.
  apply (Update_changes_only_user_and_plan sample_repo "sub_7" sample_sub).
  reflexivity.
Defined.

(** C8: deleting a present identifier twice finds and removes the record
    the first time, and finds nothing and changes nothing the second
    time. *)
Theorem Delete_twice r id sub :
  GetByID r id = (sub, true) →
  ∃ r',
    Delete r id = ((sub, true), r')
    ∧ (GetByID r' id).2 = false
    ∧ Delete r' id = ((zeroSubscription, false), r').
Proof.
  intros Hget. apply GetByID_found in Hget.
  unfold Delete at 1. rewrite Hget. eexists; split; [reflexivity|].
  assert (Hgone : delete id (subscriptions r) !! id = None)
    by apply lookup_delete_eq.
  split.
  - by apply GetByID_absent.
  - unfold Delete. cbn. by rewrite Hgone.
Qed.

Lemma Delete_twice_witness :
  ∃ r',
    Delete sample_repo "sub_7" = ((sample_sub, true), r')
    ∧ (GetByID r' "sub_7").2 = false
    ∧ Delete r' "sub_7" = ((zeroSubscription, false), r').
Proof.
  apply (Delete_twice sample_repo "sub_7" sample_sub). reflexivity.
Defined.

(** C9: [Update] of an absent identifier reports not-found with the zero
    record and returns the store unchanged. *)
Theorem Update_absent r id userID plan :
  (GetByID r id).2 = false →
  Update r id userID plan = ((zeroSubscription, false), r).
Proof.
  intros Hget. apply GetByID_absent in Hget.
  unfold Update. by rewrite Hget.
Qed.

Lemma Update_absent_witness :
  Update sample_repo "sub_8" "u2" "premium"
  = ((zeroSubscription, false), sample_repo).
Proof.
  apply (Update_absent sample_repo "sub_8" "u2" "premium"). reflexivity.
Defined.

End RepositoryFacts.

(** ** Runs of [Create] *)

Module CreateFacts.
Import Runtime Models Repository StoreSpec Samples RepositoryFacts.

Lemma keyed_new : keyed NewSubscriptionRepository.
Proof. intros k sub H. cbn in H. by rewrite lookup_empty in H. Qed.

Lemma keyed_insert r sub :
  keyed r → keyed (mkRepository (<[ID sub := sub]> (subscriptions r))).
Proof.
  intros Hr k s. cbn. rewrite lookup_insert.
  case_decide; [intros; by simplify_eq | apply Hr].
Qed.

Lemma keyed_Update r id userID plan :
  keyed r → keyed (Update r id userID plan).2.
Proof.
  intros Hr. unfold Update.
  destruct (subscriptions r !! id) as [sub|] eqn:Hid; [|exact Hr].
  intros k s. cbn. rewrite lookup_insert.
  case_decide; [|apply Hr].
  intros; simplify_eq. cbn. by apply Hr.
Qed.

Lemma keyed_Delete r id : keyed r → keyed (Delete r id).2.
Proof.
  intros Hr. unfold Delete.
  destruct (subscriptions r !! id) as [sub|] eqn:Hid; [|exact Hr].
  intros k s. cbn. rewrite lookup_delete.
  case_decide; [done | apply Hr].
Qed.

(** In a keyed store the identifiers enumerated by [GetAll] are the keys,
    hence without repetition. *)
Lemma keyed_GetAll_NoDup r : keyed r → NoDup (ID <$> GetAll r).
Proof.
  intros Hr. unfold GetAll.
  replace (ID <$> (map_to_list (subscriptions r)).*2)
    with ((map_to_list (subscriptions r)).*1);
    [apply NoDup_fst_map_to_list|].
  rewrite <- list_fmap_compose. apply Forall_fmap_ext_1.
  apply Forall_forall. intros [k s] Hin. cbn.
  apply elem_of_map_to_list in Hin. symmetry. by apply Hr.
Qed.

Section WithCalendar.

Variable AddDate : Time → Z → Z → Z → Time.

Local Abbreviation created := (StoreSpec.created AddDate).

Lemma Create_unfold r userID plan w :
  Create AddDate r userID plan w =
    ((created w userID plan,
      mkRepository (<[drawn_id w 0 := created w userID plan]>
                      (subscriptions r))),
     after_Create w).
Proof. reflexivity. Qed.

Lemma drawn_id_after_Create w i :
  drawn_id (after_Create w) i = drawn_id w (S i).
Proof. unfold drawn_id. cbn. by rewrite Nat.add_succ_r. Qed.

Lemma drawn_ids_S w n :
  drawn_ids w (S n) = drawn_id w 0 :: drawn_ids (after_Create w) n.
Proof.
  unfold drawn_ids. cbn. f_equal. rewrite <- fmap_S_seq.
  rewrite <- list_fmap_compose. apply list_fmap_ext.
  intros i x _. cbn. by rewrite drawn_id_after_Create.
Qed.

Lemma CreateAll_cons r userID plan reqs w :
  CreateAll AddDate r ((userID, plan) :: reqs) w =
    let r1 := mkRepository (<[drawn_id w 0 := created w userID plan]>
                              (subscriptions r)) in
    let rest := CreateAll AddDate r1 reqs (after_Create w) in
    ((created w userID plan :: rest.1.1, rest.1.2), rest.2).
Proof.
  cbn [CreateAll]. unfold st_bind at 1. rewrite Create_unfold. cbn.
  unfold st_bind.
  by destruct (CreateAll AddDate _ reqs (after_Create w)) as [[subs r'] w'].
Qed.

Lemma CreateAll_spec reqs : ∀ r w,
  let res := CreateAll AddDate r reqs w in
  ID <$> res.1.1 = drawn_ids w (length reqs)
  ∧ dom (subscriptions res.1.2)
    = dom (subscriptions r) ∪ list_to_set (drawn_ids w (length reqs))
  ∧ (keyed r → keyed res.1.2).
Proof.
  induction reqs as [|[userID plan] reqs IH]; intros r w.
  - cbn. split; [done|]. split; [set_solver | done].
  - rewrite CreateAll_cons. cbn zeta.
    set (r1 := mkRepository _).
    destruct (IH r1 (after_Create w)) as (Hids & Hdom & Hkeyed).
    cbn [fst snd length]. rewrite drawn_ids_S.
    split; [|split].
    + cbn. by rewrite Hids.
    + rewrite Hdom. subst r1. cbn. rewrite dom_insert_L. set_solver.
    + intros Hr. apply Hkeyed. subst r1.
      apply (keyed_insert r (created w userID plan) Hr).
Qed.

End WithCalendar.

Lemma size_list_to_set_le (l : list string) :
  (size (list_to_set l : gset string) ≤ length l)%nat.
Proof.
  induction l as [|x l IH]; [done|]. cbn.
  destruct (decide (x ∈ (list_to_set l : gset string))) as [Hin|Hin].
  - replace ({[x]} ∪ list_to_set l) with (list_to_set l : gset string)
      by set_solver. lia.
  - rewrite size_union by set_solver. rewrite size_singleton. lia.
Qed.

Section Entries.

Variable AddDate : Time → Z → Z → Z → Time.

(** C2, as the code has it: after [N] calls of [Create] on a new store
    every record sits under its own identifier, so the enumeration
    shows no identifier twice, and the store holds at most [N]
    entries; it holds exactly [N], and the [N] records handed back
    carry pairwise distinct identifiers, when the [N] identifiers drawn
    are pairwise distinct. *)
Theorem CreateAll_entries (reqs : list (string * string)) (w : World) :
  let res := CreateAll AddDate NewSubscriptionRepository reqs w in
  (keyed res.1.2
   ∧ NoDup (ID <$> GetAll res.1.2)
   ∧ Count res.1.2 ≤ Z.of_nat (length reqs))
  ∧ (NoDup (drawn_ids w (length reqs)) →
     Count res.1.2 = Z.of_nat (length reqs)
     ∧ NoDup (ID <$> res.1.1)).
Proof.
  destruct (CreateAll_spec AddDate reqs NewSubscriptionRepository w)
    as (Hids & Hdom & Hkeyed).
  cbn zeta. specialize (Hkeyed keyed_new).
  assert (Hsize : size (subscriptions
            (CreateAll AddDate NewSubscriptionRepository reqs w).1.2)
          = size (list_to_set (drawn_ids w (length reqs)) : gset string)).
  { rewrite <- size_dom, Hdom. cbn. rewrite dom_empty_L.
    by rewrite (left_id_L ∅ (∪)). }
  split; [split; [done|split]|].
  - by apply keyed_GetAll_NoDup.
  - unfold Count. rewrite Hsize.
    pose proof (size_list_to_set_le (drawn_ids w (length reqs))) as Hle.
    unfold drawn_ids in Hle at 2. rewrite length_fmap, length_seq in Hle.
    lia.
  - intros Hnd. split.
    + unfold Count. rewrite Hsize, size_list_to_set by done.
      unfold drawn_ids. by rewrite length_fmap, length_seq.
    + by rewrite Hids.
Qed.

End Entries.

Lemma CreateAll_entries_witness :
  let res := CreateAll sample_AddDate NewSubscriptionRepository
                       three_creates world_count in
  Count res.1.2 = 3
  ∧ NoDup (ID <$> res.1.1).
Proof.
  apply (CreateAll_entries sample_AddDate three_creates world_count).
  vm_compute. repeat constructor; set_solver.
Defined.

(** C2 as stated fails: two calls of [Create] that draw the same number
    hand back two records with the same identifier and leave a store of
    one entry. *)
Lemma CreateAll_collision :
  let res := CreateAll sample_AddDate NewSubscriptionRepository
                       two_creates (world_const 5) in
  length two_creates = 2%nat
  ∧ ID <$> res.1.1 = ["sub_5"; "sub_5"]
  ∧ Count res.1.2 = 1.
Proof. vm_compute. done. Qed.

End CreateFacts.

(** ** The create workflow *)

Module WorkflowFacts.
Import Runtime Models Repository Services Handlers.
Import StoreSpec WorkflowSpec Samples RepositoryFacts CreateFacts.

Lemma IsValidPlan_true plan :
  IsValidPlan plan = true ↔ plan = "basic" ∨ plan = "premium".
Proof.
  unfold IsValidPlan. rewrite orb_true_iff, !bool_decide_eq_true. tauto.
Qed.

Lemma IsValidPlan_nonempty plan : IsValidPlan plan = true → plan ≠ "".
Proof. intros [->| ->]%IsValidPlan_true; discriminate. Qed.

(** The price lookup, case by case. *)
Lemma GetPlanPrice_table :
  GetPlanPrice "basic" = 10.0%float
  ∧ GetPlanPrice "premium" = 20.0%float
  ∧ ∀ plan, plan ≠ "basic" → plan ≠ "premium" →
      GetPlanPrice plan = 0.0%float.
Proof.
  split; [reflexivity|]. split; [reflexivity|].
  intros plan Hb Hp. unfold GetPlanPrice. by repeat case_decide.
Qed.

Section WithDependencies.

Variable AddDate : Time → Z → Z → Z → Time.
Variable net : Http.
Variable paymentService : PaymentService.

Local Abbreviation provisioned := (WorkflowSpec.provisioned AddDate).
Local Abbreviation charged := (WorkflowSpec.charged AddDate).
Local Abbreviation outcome := (WorkflowSpec.outcome net paymentService).

Lemma Repository_Create_unfold userID plan s :
  Repository_Create AddDate userID plan s =
    (created AddDate (world s) userID plan, provisioned s userID plan).
Proof. reflexivity. Qed.

Lemma Repository_Delete_charged s ctx userID plan :
  Repository_Delete (drawn_id (world s) 0) (charged s ctx userID plan)
  = ((created AddDate (world s) userID plan, true),
     compensated s ctx userID plan).
Proof.
  unfold Repository_Delete, Delete. cbn.
  rewrite lookup_insert_eq. cbn. unfold compensated.
  by rewrite delete_insert_eq, <- app_assoc.
Qed.

Lemma PaymentService_ProcessPayment_provisioned s ctx userID plan :
  PaymentService_ProcessPayment net paymentService ctx (charge s plan)
    (provisioned s userID plan)
  = (outcome s ctx plan, charged s ctx userID plan).
Proof.
  unfold PaymentService_ProcessPayment, record, st_bind, st_modify, st_ret.
  cbn. unfold charged, outcome. by rewrite <- app_assoc.
Qed.

Lemma V1_createSubscription_unfold r s userID plan :
  well_formed r userID plan →
  V1_createSubscription AddDate net paymentService r s =
    match (outcome s (ReqContext r) plan).2 with
    | Some err =>
        (HttpError "Payment processing failed" StatusInternalServerError,
         charged s (ReqContext r) userID plan)
    | None =>
        (Encoded (created AddDate (world s) userID plan),
         charged s (ReqContext r) userID plan)
    end.
Proof.
  intros (Hbody & Huser & Hplan).
  pose proof (IsValidPlan_nonempty _ Hplan) as Hne.
  unfold V1_createSubscription. rewrite Hbody. cbn [rd_UserID rd_Plan].
  rewrite !bool_decide_eq_false_2 by done. rewrite Hplan. cbn [orb negb].
  unfold st_bind at 1. rewrite Repository_Create_unfold.
  unfold st_bind at 1. cbn [Models.ID Models.Plan created]. fold (charge s plan).
  rewrite (PaymentService_ProcessPayment_provisioned s (ReqContext r)).
  by destruct (outcome s (ReqContext r) plan).2.
Qed.

Lemma V2_createSubscription_unfold r s userID plan :
  well_formed r userID plan →
  V2_createSubscription AddDate net paymentService r s =
    match (outcome s (ReqContext r) plan).2 with
    | Some err =>
        (HttpError "Payment processing failed" StatusInternalServerError,
         compensated s (ReqContext r) userID plan)
    | None =>
        (Encoded (created AddDate (world s) userID plan),
         charged s (ReqContext r) userID plan)
    end.
Proof.
  intros (Hbody & Huser & Hplan).
  pose proof (IsValidPlan_nonempty _ Hplan) as Hne.
  unfold V2_createSubscription. rewrite Hbody. cbn [rd_UserID rd_Plan].
  rewrite !bool_decide_eq_false_2 by done. rewrite Hplan. cbn [orb negb].
  unfold st_bind at 1. rewrite Repository_Create_unfold.
  unfold st_bind at 1. cbn [Models.ID Models.Plan created]. fold (charge s plan).
  rewrite (PaymentService_ProcessPayment_provisioned s (ReqContext r)).
  destruct (outcome s (ReqContext r) plan).2; [|done].
  unfold st_bind. by rewrite Repository_Delete_charged.
Qed.

Lemma V3_createSubscription_unfold r s userID plan :
  well_formed r userID plan →
  V3_createSubscription AddDate net paymentService r s =
    match (outcome s (ReqContext r) plan).2 with
    | Some err =>
        (HttpError "Payment processing failed" StatusInternalServerError,
         compensated s (ReqContext r) userID plan)
    | None =>
        (Encoded (created AddDate (world s) userID plan),
         charged s (ReqContext r) userID plan)
    end.
Proof.
  intros (Hbody & Huser & Hplan).
  pose proof (IsValidPlan_nonempty _ Hplan) as Hne.
  unfold V3_createSubscription. rewrite Hbody. cbn [rd_UserID rd_Plan].
  rewrite !bool_decide_eq_false_2 by done. rewrite Hplan. cbn [orb negb].
  unfold st_bind at 1. rewrite Repository_Create_unfold.
  unfold TraceOperation, st_bind at 1. unfold st_bind at 1.
  cbn [Models.ID Models.Plan created]. fold (charge s plan).
  rewrite (PaymentService_ProcessPayment_provisioned s (ReqContext r)).
  unfold st_ret at 1.
  destruct (outcome s (ReqContext r) plan).2; [|done].
  unfold st_bind. by rewrite Repository_Delete_charged.
Qed.

Lemma compensated_absent s ctx userID plan :
  (GetByID (Repo (compensated s ctx userID plan))
           (drawn_id (world s) 0)).2 = false.
Proof. apply GetByID_absent. cbn. apply lookup_delete_eq. Qed.

Lemma compensated_fresh s ctx userID plan :
  (GetByID (Repo s) (drawn_id (world s) 0)).2 = false →
  Repo (compensated s ctx userID plan) = Repo s.
Proof.
  intros Hfresh%GetByID_absent. cbn. rewrite delete_id by done.
  by destruct (Repo s).
Qed.

Lemma charged_present s ctx userID plan :
  GetByID (Repo (charged s ctx userID plan)) (drawn_id (world s) 0)
  = (created AddDate (world s) userID plan, true).
Proof. apply GetByID_found. cbn. apply lookup_insert_eq. Qed.

Lemma json_Marshal_charge s plan :
  IsValidPlan plan = true →
  json_Marshal (charge s plan) = inr (charge s plan).
Proof. by intros [->| ->]%IsValidPlan_true. Qed.

(** On an error of the payment client the V2 and V3 workflows end in
    the compensated process. *)
Lemma createSubscription_on_error
    (h : Request → St Proc Response) r s userID plan err :
  h = V2_createSubscription AddDate net paymentService
  ∨ h = V3_createSubscription AddDate net paymentService →
  well_formed r userID plan →
  (outcome s (ReqContext r) plan).2 = Some err →
  h r s = (HttpError "Payment processing failed"
                     StatusInternalServerError,
           compensated s (ReqContext r) userID plan).
Proof.
  intros Hh Hwf Herr.
  destruct Hh as [->| ->];
    [rewrite (V2_createSubscription_unfold _ _ _ _ Hwf)
    |rewrite (V3_createSubscription_unfold _ _ _ _ Hwf)];
    by rewrite Herr.
Qed.

(** On the same error the V1 workflow stops after the charge: no [Delete]
    is called and the provisioned record is still found. *)
Lemma V1_createSubscription_on_error r s userID plan err :
  well_formed r userID plan →
  (outcome s (ReqContext r) plan).2 = Some err →
  V1_createSubscription AddDate net paymentService r s
    = (HttpError "Payment processing failed" StatusInternalServerError,
       charged s (ReqContext r) userID plan)
  ∧ GetByID (Repo (charged s (ReqContext r) userID plan))
            (drawn_id (world s) 0)
    = (StoreSpec.created AddDate (world s) userID plan, true).
Proof.
  intros Hwf Herr.
  rewrite (V1_createSubscription_unfold _ _ _ _ Hwf), Herr.
  split; [reflexivity | apply charged_present].
Qed.

(** C1, as the code has it: when the payment client returns an error
    to the V2 or V3 create workflow, the workflow answers 500 after
    exactly one [Create], one [ProcessPayment] and one [Delete] of the
    provisioned record; a [GetByID] for that record then reports
    not-found, and the store (hence its [Count]) is what it was before
    the workflow whenever the identifier drawn was not already in
    use. *)
Theorem failed_charge_is_compensated
    (h : Request → St Proc Response) r s userID plan err :
  h = V2_createSubscription AddDate net paymentService
  ∨ h = V3_createSubscription AddDate net paymentService →
  well_formed r userID plan →
  (outcome s (ReqContext r) plan).2 = Some err →
  ∃ s',
    h r s = (HttpError "Payment processing failed"
                       StatusInternalServerError, s')
    ∧ calls s' =
        calls s ++ [CallCreate userID plan;
                    CallProcessPayment (ReqContext r) (charge s plan);
                    CallDelete (ID (created AddDate (world s) userID plan))]
    ∧ (GetByID (Repo s')
               (ID (created AddDate (world s) userID plan))).2 = false
    ∧ ((GetByID (Repo s)
                (ID (created AddDate (world s) userID plan))).2 = false →
       Repo s' = Repo s ∧ Count (Repo s') = Count (Repo s)).
Proof.
  intros Hh Hwf Herr.
  exists (compensated s (ReqContext r) userID plan).
  split; [by apply createSubscription_on_error with err|].
  split; [reflexivity|]. split; [apply compensated_absent|].
  intros Hfresh. cbn [Models.ID created] in Hfresh.
  pose proof (compensated_fresh s (ReqContext r) userID plan Hfresh) as Heq.
  split; [done | by rewrite Heq].
Qed.

(** C3: when the payment client returns no error, each create workflow
    answers with the provisioned record; a [GetByID] on its identifier
    finds it with the requested user and plan, and the one payment
    request made carried the price of the plan: 10.00 for "basic",
    20.00 for "premium", 0.00 for any other plan. *)
Theorem successful_charge_persists
    (h : Request → St Proc Response) r s userID plan :
  h = V1_createSubscription AddDate net paymentService
  ∨ h = V2_createSubscription AddDate net paymentService
  ∨ h = V3_createSubscription AddDate net paymentService →
  well_formed r userID plan →
  (outcome s (ReqContext r) plan).2 = None →
  ∃ sub s',
    h r s = (Encoded sub, s')
    ∧ GetByID (Repo s') (ID sub) = (sub, true)
    ∧ UserID sub = userID
    ∧ Plan sub = plan
    ∧ calls s' =
        calls s ++ [CallCreate userID plan;
                    CallProcessPayment (ReqContext r)
                      (PaymentRequest.mk (ID sub) (GetPlanPrice plan) plan)]
    ∧ GetPlanPrice "basic" = 10.0%float
    ∧ GetPlanPrice "premium" = 20.0%float
    ∧ ∀ other, other ≠ "basic" → other ≠ "premium" →
        GetPlanPrice other = 0.0%float.
Proof.
  intros Hh Hwf Hok.
  exists (created AddDate (world s) userID plan),
         (charged s (ReqContext r) userID plan).
  split.
  { destruct Hh as [->|[->| ->]];
      [rewrite (V1_createSubscription_unfold _ _ _ _ Hwf)
      |rewrite (V2_createSubscription_unfold _ _ _ _ Hwf)
      |rewrite (V3_createSubscription_unfold _ _ _ _ Hwf)];
      by rewrite Hok. }
  split; [apply charged_present|].
  do 3 (split; [reflexivity|]). apply GetPlanPrice_table.
Qed.


End WithDependencies.

Lemma failed_charge_is_compensated_witness :
  ∃ s',
    V2_createSubscription sample_AddDate net_down svc
                          create_u1_premium proc_new
    = (HttpError "Payment processing failed" StatusInternalServerError, s')
    ∧ calls s' =
        [CallCreate "u1" "premium";
         CallProcessPayment Live
           (PaymentRequest.mk "sub_5" 20.0%float "premium");
         CallDelete "sub_5"]
    ∧ (GetByID (Repo s') "sub_5").2 = false
    ∧ ((GetByID (Repo proc_new) "sub_5").2 = false →
       Repo s' = Repo proc_new ∧ Count (Repo s') = Count (Repo proc_new)).
Proof.
  apply (failed_charge_is_compensated sample_AddDate net_down svc
           (V2_createSubscription sample_AddDate net_down svc)
           create_u1_premium proc_new "u1" "premium"
           "failed to send payment request: connection refused").
  - by left.
  - repeat split; [discriminate].
  - reflexivity.
Defined.

(** C1 as stated fails twice over.  The V1 workflow has no compensating
    delete: after a failed charge the record is still found and the
    store has grown by one.  And the V2 workflow, when the identifier
    drawn is already in use, overwrites that record and then deletes it,
    so the store has shrunk by one. *)
Lemma failed_charge_not_always_undone :
  (let res := V1_createSubscription sample_AddDate net_down svc
                                    create_u1_premium proc_new in
   res.1 = HttpError "Payment processing failed" StatusInternalServerError
   ∧ (GetByID (Repo res.2) "sub_5").2 = true
   ∧ calls res.2 =
       [CallCreate "u1" "premium";
        CallProcessPayment Live
          (PaymentRequest.mk "sub_5" 20.0%float "premium")]
   ∧ Count (Repo proc_new) = 0
   ∧ Count (Repo res.2) = 1)
  ∧ (let res := V2_createSubscription sample_AddDate net_down svc
                                      create_u1_premium proc_sub_7 in
     res.1 = HttpError "Payment processing failed" StatusInternalServerError
     ∧ (GetByID (Repo res.2) "sub_7").2 = false
     ∧ Count (Repo proc_sub_7) = 1
     ∧ Count (Repo res.2) = 0).
Proof. vm_compute. done. Qed.

Lemma successful_charge_persists_witness :
  ∃ sub s',
    V2_createSubscription sample_AddDate net_up svc
                          create_u1_premium proc_new
    = (Encoded sub, s')
    ∧ GetByID (Repo s') (ID sub) = (sub, true)
    ∧ UserID sub = "u1"
    ∧ Plan sub = "premium"
    ∧ calls s' =
        [] ++ [CallCreate "u1" "premium";
               CallProcessPayment Live
                 (PaymentRequest.mk (ID sub) (GetPlanPrice "premium")
                                    "premium")]
    ∧ GetPlanPrice "basic" = 10.0%float
    ∧ GetPlanPrice "premium" = 20.0%float
    ∧ ∀ other, other ≠ "basic" → other ≠ "premium" →
        GetPlanPrice other = 0.0%float.
Proof.
  apply (successful_charge_persists sample_AddDate net_up svc
           (V2_createSubscription sample_AddDate net_up svc)
           create_u1_premium proc_new "u1" "premium").
  - right. by left.
  - repeat split; [discriminate].
  - reflexivity.
Defined.


End WorkflowFacts.

(** ** The payment service *)

Module PaymentFacts.
Import Runtime PaymentModels PaymentProcessor PaymentSpec.
Import Samples PaymentSamples.

Lemma fee_rate_table :
  fee_rate "premium" = 0.025%float
  ∧ fee_rate "enterprise" = 0.02%float
  ∧ ∀ plan, plan ≠ "premium" → plan ≠ "enterprise" →
      fee_rate plan = 0.029%float.
Proof.
  split; [reflexivity|]. split; [reflexivity|].
  intros plan H1 H2. unfold fee_rate. by repeat case_decide.
Qed.

Lemma CalculateFees_fee_rate amount plan :
  CalculateFees amount plan =
    if (amount * fee_rate plan <? 0.30)%float then 0.30%float
    else (amount * fee_rate plan)%float.
Proof. unfold CalculateFees, fee_rate. by repeat case_decide. Qed.

(** C5: for a positive amount the fee is the amount times the rate of
    the plan (2.9%, 2.5% for "premium", 2.0% for "enterprise"), and
    exactly 0.30 whenever that product is below 0.30; the arithmetic is
    that of the code, IEEE 754 binary64. *)
Theorem CalculateFees_rate_and_floor (amount : float) (plan : string) :
  (0 <? amount)%float = true →
  (fee_rate "premium" = 0.025%float
   ∧ fee_rate "enterprise" = 0.02%float
   ∧ ∀ other, other ≠ "premium" → other ≠ "enterprise" →
       fee_rate other = 0.029%float)
  ∧ ((amount * fee_rate plan <? 0.30)%float = true →
     CalculateFees amount plan = 0.30%float)
  ∧ ((amount * fee_rate plan <? 0.30)%float = false →
     CalculateFees amount plan = (amount * fee_rate plan)%float).
Proof.
  intros _. split; [apply fee_rate_table|].
  rewrite CalculateFees_fee_rate. split; intros ->; reflexivity.
Qed.

Lemma ValidatePaymentRequest_rejects req :
  validation_failure req →
  ∃ err, ValidatePaymentRequest req = Some err
         ∧ PaymentError.Type_ err = "validation_error".
Proof.
  intros Hbad. unfold ValidatePaymentRequest.
  case_decide; [by eexists|].
  destruct (PaymentRequest.Amount req <=? 0)%float eqn:Hamt; [by eexists|].
  case_decide; [by eexists|].
  destruct Hbad as [?|[?|?]]; congruence.
Qed.

(** C6: a request without subscription id, with a non-positive amount or
    without plan is answered with a "validation_error" and no response,
    in a world left as it was: nothing slept, nothing drawn. *)
Theorem ProcessPayment_validation_first p ctx req w :
  validation_failure req →
  ∃ err,
    ProcessPayment p ctx req w = ((None, Some err), w)
    ∧ PaymentError.Type_ err = "validation_error".
Proof.
  intros (err & Hval & Hty)%ValidatePaymentRequest_rejects.
  exists err. unfold ProcessPayment. by rewrite Hval.
Qed.

Lemma failures_lookup (r : N) :
  ∃ failure,
    failures !! N.to_nat (r mod N.of_nat (length failures))%N = Some failure
    ∧ failure ∈ failures
    ∧ PaymentError.Type_ failure ∈ failure_kinds.
Proof.
  assert (Hlt : (N.to_nat (r mod N.of_nat (length failures))%N < 5)%nat).
  { cbn. pose proof (N.mod_upper_bound r 5). lia. }
  destruct (N.to_nat _) as [|[|[|[|[|k]]]]]; [..|lia];
    (eexists; split; [reflexivity|]; split; set_solver).
Qed.

(** C10: a valid request selected for a simulated failure gets both a
    response and an error: the response is "failed", repeats the
    request's amount, has no fees and carries the identifier made of the
    next clock reading and the next 31-bit draw; the error is one of the
    five failure kinds. *)
Theorem ProcessPayment_simulated_failure p ctx req w :
  ValidatePaymentRequest req = None →
  EnableFailures (config p) = true →
  (float_src w (float_pos w) <? FailureRate (config p))%float = true →
  ∃ resp failure w',
    ProcessPayment p ctx req w = ((Some resp, Some failure), w')
    ∧ PaymentResponse.Status resp = "failed"
    ∧ PaymentResponse.Amount resp = PaymentRequest.Amount req
    ∧ PaymentResponse.Fees resp = 0%float
    ∧ PaymentResponse.ID resp =
        "pmt_" +:+ pretty (time_src w (time_pos w)) +:+ "_"
               +:+ pretty (rand_src w (S (rand_pos w)) mod 2 ^ 31)%N
    ∧ failure ∈ failures
    ∧ PaymentError.Type_ failure ∈ failure_kinds.
Proof.
  intros Hval Hon Hdraw.
  destruct (failures_lookup (rand_src w (rand_pos w)))
    as (failure & Hlook & Hin & Hkind).
  unfold ProcessPayment. rewrite Hval, Hon.
  destruct (0 <? ProcessingDelay (config p)) eqn:Hdelay;
    cbn -[failures N.of_nat N.modulo pretty String.append];
    rewrite Hdraw;
    cbn -[failures N.of_nat N.modulo pretty String.append];
    rewrite Hlook;
    (eexists _, failure, _; split; [reflexivity|]; by cbn).
Qed.

Lemma CalculateFees_rate_and_floor_witness :
  (fee_rate "premium" = 0.025%float
   ∧ fee_rate "enterprise" = 0.02%float
   ∧ ∀ other, other ≠ "premium" → other ≠ "enterprise" →
       fee_rate other = 0.029%float)
  ∧ ((10.0 * fee_rate "basic" <? 0.30)%float = true →
     CalculateFees 10.0%float "basic" = 0.30%float)
  ∧ ((10.0 * fee_rate "basic" <? 0.30)%float = false →
     CalculateFees 10.0%float "basic" = (10.0 * fee_rate "basic")%float).
Proof.
  apply (CalculateFees_rate_and_floor 10.0%float "basic"). reflexivity.
Defined.

Lemma ProcessPayment_validation_first_witness :
  ∃ err,
    ProcessPayment always_failing Live pay_nothing (world_const 7)
    = ((None, Some err), world_const 7)
    ∧ PaymentError.Type_ err = "validation_error".
Proof.
  apply (ProcessPayment_validation_first always_failing Live pay_nothing
           (world_const 7)).
  right. left. reflexivity.
Defined.

Lemma ProcessPayment_simulated_failure_witness :
  ∃ resp failure w',
    ProcessPayment always_failing Live pay_premium (world_const 7)
    = ((Some resp, Some failure), w')
    ∧ PaymentResponse.Status resp = "failed"
    ∧ PaymentResponse.Amount resp = 20.0%float
    ∧ PaymentResponse.Fees resp = 0%float
    ∧ PaymentResponse.ID resp =
        "pmt_" +:+ pretty 1700000000000000000 +:+ "_"
               +:+ pretty (7 mod 2 ^ 31)%N
    ∧ failure ∈ failures
    ∧ PaymentError.Type_ failure ∈ failure_kinds.
Proof.
  apply (ProcessPayment_simulated_failure always_failing Live pay_premium
           (world_const 7)); reflexivity.
Defined.


End PaymentFacts.

(** ** More on the repository *)

Module StoreFacts.
Import Runtime Models Repository StoreSpec Samples RepositoryFacts CreateFacts.

Lemma GetByID_lookup r id :
  GetByID r id = (default zeroSubscription (subscriptions r !! id),
                  bool_decide (is_Some (subscriptions r !! id))).
Proof. unfold GetByID. by destruct (subscriptions r !! id). Qed.

Lemma GetByID_ext r r' id :
  subscriptions r' !! id = subscriptions r !! id →
  GetByID r' id = GetByID r id.
Proof. intros H. by rewrite !GetByID_lookup, H. Qed.

(** X1: the record [Create] hands back is the one [GetByID] finds under its
    identifier, with the requested user and plan; every other identifier
    reads as before, and the store grows by one entry unless the
    identifier was already in use, in which case its size is unchanged. *)
Theorem Create_then_GetByID (AddDate : Time → Z → Z → Z → Time)
    r userID plan w :
  let res := (Create AddDate r userID plan w).1 in
  GetByID res.2 (ID res.1) = (res.1, true)
  ∧ UserID res.1 = userID
  ∧ Plan res.1 = plan
  ∧ (∀ j, j ≠ ID res.1 → GetByID res.2 j = GetByID r j)
  ∧ Count res.2 =
      if (GetByID r (ID res.1)).2 then Count r else Count r + 1.
Proof.
  rewrite Create_unfold. cbn [fst snd ID UserID Plan created].
  split; [apply GetByID_found; cbn; apply lookup_insert_eq|].
  do 2 (split; [reflexivity|]). split.
  - intros j Hj. apply GetByID_ext. cbn. by rewrite lookup_insert_ne.
  - unfold Count, GetByID. cbn. rewrite map_size_insert.
    destruct (subscriptions r !! drawn_id w 0); cbn; lia.
Qed.

(** X2: [GetAll] lists exactly the records [GetByID] can find, as many as
    [Count] says. *)
Theorem GetAll_Count_GetByID r :
  Z.of_nat (length (GetAll r)) = Count r
  ∧ ∀ sub, sub ∈ GetAll r ↔ ∃ id, GetByID r id = (sub, true).
Proof.
  unfold GetAll, Count. split.
  - by rewrite length_fmap, length_map_to_list.
  - intros sub. rewrite list_elem_of_fmap. split.
    + intros ([id sub'] & -> & Hin). exists id.
      apply GetByID_found. by apply elem_of_map_to_list.
    + intros (id & Hget). exists (id, sub). split; [done|].
      apply elem_of_map_to_list. by apply GetByID_found.
Qed.

(** X3: [Delete] hands back exactly what [GetByID] reported just before;
    afterwards the identifier is absent, every other identifier reads as
    before, and the store has shrunk by one entry exactly when the record
    was found. *)
Theorem Delete_effect r id :
  let res := Delete r id in
  res.1 = GetByID r id
  ∧ (GetByID res.2 id).2 = false
  ∧ (∀ j, j ≠ id → GetByID res.2 j = GetByID r j)
  ∧ Count res.2 = Count r - (if res.1.2 then 1 else 0).
Proof.
  unfold Delete, GetByID at 1.
  destruct (subscriptions r !! id) as [sub|] eqn:Hid; cbn [fst snd].
  - split; [done|]. split; [apply GetByID_absent; cbn; apply lookup_delete_eq|].
    split.
    + intros j Hj. apply GetByID_ext. cbn. by rewrite lookup_delete_ne.
    + unfold Count. cbn. rewrite map_size_delete, Hid.
      assert (size (subscriptions r) ≠ 0%nat).
      { intros Hz%map_size_empty_inv. by rewrite Hz, lookup_empty in Hid. }
      lia.
  - split; [done|]. split; [by apply GetByID_absent|]. split; [done | lia].
Qed.

(** X4: creating a record under an identifier not yet in use and deleting
    it again gives back the store as it was. *)
Theorem Create_then_Delete (AddDate : Time → Z → Z → Z → Time)
    r userID plan w :
  let res := (Create AddDate r userID plan w).1 in
  (GetByID r (ID res.1)).2 = false →
  Delete res.2 (ID res.1) = ((res.1, true), r).
Proof.
  rewrite Create_unfold. cbn [fst snd ID created].
  intros Hfresh%GetByID_absent. unfold Delete. cbn.
  rewrite lookup_insert_eq, delete_insert_eq, delete_id by done.
  by destruct r.
Qed.

Lemma Create_then_Delete_witness :
  Delete (Create sample_AddDate sample_repo "u2" "premium" (world_const 5)).1.2
         "sub_5"
  = ((mkSubscription "sub_5" "u2" "premium" 1700000000000000000
                     (sample_AddDate 1700000000000000001 1 0 0), true),
     sample_repo).
Proof.
  apply (Create_then_Delete sample_AddDate sample_repo "u2" "premium"
           (world_const 5)).
  reflexivity.
Defined.

(** X5: of two updates of the same identifier the second one wins: the
    outcome and the store are those of the second update alone.  In
    particular an update repeated changes nothing more. *)
Theorem Update_twice r id userID1 plan1 userID2 plan2 :
  Update (Update r id userID1 plan1).2 id userID2 plan2
  = Update r id userID2 plan2.
Proof.
  unfold Update at 2 3.
  destruct (subscriptions r !! id) as [sub|] eqn:Hid; cbn [snd].
  - unfold Update. cbn. rewrite lookup_insert_eq. cbn.
    by rewrite insert_insert_eq.
  - unfold Update. by rewrite Hid.
Qed.

(** The [rand.Int()] values behind the next [n] identifiers. *)
Lemma drawn_id_inj w i j :
  drawn_id w i = drawn_id w j ↔
  (rand_src w (i + rand_pos w) mod 2 ^ 63 =
   rand_src w (j + rand_pos w) mod 2 ^ 63)%N.
Proof.
  unfold drawn_id. split; [|by intros ->].
  intros H. by apply (inj (String.append "sub_")), (inj pretty) in H.
Qed.

(** X6: identifiers are as distinct as the numbers drawn: when the [N]
    values of [rand.Int()] behind a run of [N] calls of [Create] on a new
    store are pairwise distinct, the store holds [N] entries and each
    record handed back is found under its identifier. *)
Theorem CreateAll_distinct_draws (AddDate : Time → Z → Z → Z → Time)
    (reqs : list (string * string)) (w : World) :
  (∀ i j, (i < length reqs)%nat → (j < length reqs)%nat →
     (rand_src w (i + rand_pos w) mod 2 ^ 63 =
      rand_src w (j + rand_pos w) mod 2 ^ 63)%N → i = j) →
  let res := (CreateAll AddDate NewSubscriptionRepository reqs w).1 in
  Count res.2 = Z.of_nat (length reqs)
  ∧ NoDup (ID <$> res.1)
  ∧ ∀ sub, sub ∈ res.1 → (GetByID res.2 (ID sub)).2 = true.
Proof.
  intros Hdistinct.
  assert (Hnd : NoDup (drawn_ids w (length reqs))).
  { unfold drawn_ids. apply NoDup_fmap_2_strong; [|apply NoDup_seq].
    intros i j Hi%elem_of_seq Hj%elem_of_seq Heq%drawn_id_inj.
    apply Hdistinct; [lia..|done]. }
  destruct (CreateAll_spec AddDate reqs NewSubscriptionRepository w)
    as (Hids & Hdom & _).
  cbn zeta in *. split; [|split].
  - unfold Count. rewrite <- size_dom, Hdom. cbn. rewrite dom_empty_L.
    rewrite (left_id_L ∅ (∪)), size_list_to_set by done.
    unfold drawn_ids. by rewrite length_fmap, length_seq.
  - by rewrite Hids.
  - intros sub Hsub.
    assert (Hin : ID sub ∈ dom (subscriptions
              (CreateAll AddDate NewSubscriptionRepository reqs w).1.2)).
    { rewrite Hdom, <- Hids. apply elem_of_union_r, elem_of_list_to_set.
      by apply list_elem_of_fmap_2. }
    apply elem_of_dom in Hin as [sub' Hsub'].
    unfold GetByID. by rewrite Hsub'.
Qed.

Lemma CreateAll_distinct_draws_witness :
  let res := (CreateAll sample_AddDate NewSubscriptionRepository
                        three_creates world_count).1 in
  Count res.2 = 3
  ∧ NoDup (ID <$> res.1)
  ∧ ∀ sub, sub ∈ res.1 → (GetByID res.2 (ID sub)).2 = true.
Proof.
  apply (CreateAll_distinct_draws sample_AddDate three_creates world_count).
  intros i j Hi Hj. cbn in Hi, Hj. cbn.
  rewrite !Nat.add_0_r, !N.mod_small by lia. lia.
Defined.

End StoreFacts.

(** ** More on the subscription handlers *)

Module RoutesFacts.
Import Runtime Models Repository Services Handlers Routes.
Import StoreSpec WorkflowSpec RoutesSpec Samples.
Import RepositoryFacts CreateFacts WorkflowFacts StoreFacts.

Lemma rejected_or_well_formed r :
  rejected r ∨ ∃ userID plan, well_formed r userID plan.
Proof.
  destruct (Body r) as [[userID plan]|] eqn:Hbody; [|left; by left].
  destruct (decide (userID = "")) as [->|Huser].
  { left. right. eexists. split; [done|]. by left. }
  destruct (IsValidPlan plan) eqn:Hplan.
  - right. by exists userID, plan.
  - left. right. eexists. split; [done|]. by right.
Qed.


(** X8: the three delete handlers compute the same; they answer 204
    exactly when the record could be read before, and whatever they
    answer, reading the identifier afterwards gives 404. *)
Theorem delete_then_get r id :
  V1_deleteSubscription r id = V2_deleteSubscription r id
  ∧ V3_deleteSubscription r id = V2_deleteSubscription r id
  ∧ ((V2_deleteSubscription r id).1 = ReplyNoContent ↔
     ∃ sub, V2_getSubscription r id = ReplySubscription sub)
  ∧ V2_getSubscription (V2_deleteSubscription r id).2 id
    = ReplyError "Not found" StatusNotFound.
Proof.
  unfold V1_deleteSubscription, V2_deleteSubscription, V3_deleteSubscription,
    V2_getSubscription, Delete, GetByID.
  destruct (subscriptions r !! id) as [sub|] eqn:Hid; cbn.
  - rewrite lookup_delete_eq. repeat split; eauto.
  - rewrite Hid. repeat split; [done | by intros [? ?]].
Qed.

Lemma substring_whole (s : string) :
  String.substring 0 (String.length s) s = s.
Proof. induction s as [|c s IH]; cbn; [done | by rewrite IH]. Qed.

(** What follows a by-id prefix in the path is the identifier the handler
    uses. *)
Lemma path_after_prefix prefix id :
  path_after prefix (prefix +:+ id) = id.
Proof.
  unfold path_after. induction prefix as [|c prefix IH]; cbn.
  - rewrite Nat.sub_0_r. apply substring_whole.
  - exact IH.
Qed.

Lemma store_ok_keyed r : store_ok r → keyed r.
Proof. intros Hr k sub Hk. by destruct (Hr k sub Hk). Qed.

Lemma store_ok_new : store_ok NewSubscriptionRepository.
Proof. intros k sub H. cbn in H. by rewrite lookup_empty in H. Qed.

Lemma store_ok_created AddDate r w userID plan :
  IsValidPlan plan = true →
  store_ok r →
  store_ok (mkRepository
              (<[drawn_id w 0 := created AddDate w userID plan]>
                 (subscriptions r))).
Proof.
  intros Hplan Hr k sub. cbn. rewrite lookup_insert.
  case_decide as Hk; [|apply Hr].
  intros [= <-]. subst k. cbn. do 2 (split; [done|]).
  eexists. split; [|reflexivity]. by apply N.mod_lt.
Qed.

Lemma store_ok_deleted r id :
  store_ok r → store_ok (mkRepository (delete id (subscriptions r))).
Proof.
  intros Hr k sub. cbn. rewrite lookup_delete.
  case_decide; [done | apply Hr].
Qed.

Lemma store_ok_Update r id userID plan :
  IsValidPlan plan = true →
  store_ok r → store_ok (Update r id userID plan).2.
Proof.
  intros Hplan Hr. unfold Update.
  destruct (subscriptions r !! id) as [old|] eqn:Hid; [|exact Hr].
  intros k sub. cbn. rewrite lookup_insert.
  case_decide as Hk; [|apply Hr].
  intros [= <-]. subst k. cbn.
  destruct (Hr id old Hid) as (? & _ & ?). done.
Qed.

Lemma store_ok_Delete r id : store_ok r → store_ok (Delete r id).2.
Proof.
  intros Hr. unfold Delete.
  destruct (subscriptions r !! id); [by apply store_ok_deleted | exact Hr].
Qed.

Lemma store_ok_update_handlers r body id :
  store_ok r →
  store_ok (V1_updateSubscription r body id).2
  ∧ store_ok (V2_updateSubscription r body id).2
  ∧ store_ok (V3_updateSubscription r body id).2.
Proof.
  intros Hr.
  unfold V1_updateSubscription, V2_updateSubscription, V3_updateSubscription.
  destruct body as [[userID plan]|]; [|done]. cbn [rd_UserID rd_Plan].
  destruct (IsValidPlan plan) eqn:Hplan; [|done]. cbn [negb].
  pose proof (store_ok_Update r id userID plan Hplan Hr) as Hok.
  destruct (GetByID r id) as [old present].
  destruct (Update r id userID plan) as [[sub found] r']. cbn in Hok.
  by destruct found, present.
Qed.

Lemma store_ok_delete_handlers r id :
  store_ok r →
  store_ok (V1_deleteSubscription r id).2
  ∧ store_ok (V2_deleteSubscription r id).2
  ∧ store_ok (V3_deleteSubscription r id).2.
Proof.
  intros Hr.
  unfold V1_deleteSubscription, V2_deleteSubscription, V3_deleteSubscription.
  pose proof (store_ok_Delete r id Hr) as Hok.
  destruct (Delete r id) as [[sub found] r']. cbn in Hok.
  by destruct found.
Qed.

Section WithDependencies.

Variable AddDate : Time → Z → Z → Z → Time.
Variable net : Http.
Variable paymentService : PaymentService.

Local Abbreviation V1_create := (V1_createSubscription AddDate net paymentService).
Local Abbreviation V2_create := (V2_createSubscription AddDate net paymentService).
Local Abbreviation V3_create := (V3_createSubscription AddDate net paymentService).

Lemma create_rejected r s :
  rejected r →
  ∃ msg,
    V1_create r s = (HttpError msg StatusBadRequest, s)
    ∧ V2_create r s = (HttpError msg StatusBadRequest, s)
    ∧ V3_create r s = (HttpError msg StatusBadRequest, s).
Proof.
  unfold V1_createSubscription, V2_createSubscription, V3_createSubscription.
  intros [->|([userID plan] & -> & Hbad)]; [by eexists|].
  cbn [rd_UserID rd_Plan] in *.
  destruct (bool_decide (userID = "") || bool_decide (plan = "")) eqn:Hempty;
    [by eexists|].
  apply orb_false_iff in Hempty as [Huser%bool_decide_eq_false _].
  destruct Hbad as [?| ->]; [done|]. by eexists.
Qed.

(** X9: a create request whose body does not decode, whose user id is
    empty or whose plan is not a recognised one is answered 400 by each of
    the three create handlers, and the process is left as it was: no
    record, no call to the payment service, nothing drawn. *)
Theorem rejected_create_changes_nothing
    (h : Request → St Proc Response) r s :
  h = V1_create ∨ h = V2_create ∨ h = V3_create →
  rejected r →
  ∃ msg, h r s = (HttpError msg StatusBadRequest, s).
Proof.
  intros Hh Hrej.
  destruct (create_rejected r s Hrej) as (msg & H1 & H2 & H3).
  exists msg. by destruct Hh as [->|[->| ->]].
Qed.

(** X10: the V3 create handler computes exactly what the V2 one does, and
    the V1 handler always writes the same response as they do; V1 ends in
    the same process as well unless the payment client returned an
    error, where it keeps the record the others delete. *)
Theorem create_handlers_agree r s :
  V3_create r s = V2_create r s
  ∧ (V1_create r s).1 = (V2_create r s).1
  ∧ ((V1_create r s).2 = (V2_create r s).2
     ∨ ∃ userID plan err,
         well_formed r userID plan
         ∧ (outcome net paymentService s (ReqContext r) plan).2 = Some err
         ∧ (V1_create r s).2 = charged AddDate s (ReqContext r) userID plan
         ∧ (V2_create r s).2 = compensated s (ReqContext r) userID plan).
Proof.
  destruct (rejected_or_well_formed r) as [Hrej|(userID & plan & Hwf)].
  - destruct (create_rejected r s Hrej) as (msg & -> & -> & ->).
    split; [done|]. split; [done | by left].
  - rewrite (V1_createSubscription_unfold AddDate net paymentService _ _ _ _ Hwf),
      (V2_createSubscription_unfold AddDate net paymentService _ _ _ _ Hwf),
      (V3_createSubscription_unfold AddDate net paymentService _ _ _ _ Hwf).
    destruct (outcome net paymentService s (ReqContext r) plan).2
      as [err|] eqn:Hout.
    + split; [done|]. split; [done|]. right. by exists userID, plan, err.
    + split; [done|]. split; [done | by left].
Qed.

Local Abbreviation handler_of := (Routes.handler_of AddDate net paymentService).
Local Abbreviation serve := (Routes.serve AddDate net paymentService).

(** X11: a request whose method the route does not answer gets 405, and
    neither it nor any GET request changes the process: only a POST on a
    collection route and a PUT or DELETE on a by-id route can. *)
Theorem GET_and_unsupported_change_nothing route (r : Inbound) s :
  Method r = "GET" ∨ ¬ supported route (Method r) →
  (handler_of route r s).2 = s
  ∧ (¬ supported route (Method r) →
     (handler_of route r s).1
     = ReplyError "Method not allowed" StatusMethodNotAllowed).
Proof.
  intros Hm.
  destruct route; cbn [Routes.handler_of supported] in *;
    unfold V1_HandleSubscriptions, V2_HandleSubscriptions,
      V3_HandleSubscriptions, V1_HandleSubscriptionByID,
      V2_HandleSubscriptionByID, V3_HandleSubscriptionByID;
    repeat case_decide; try (split; [reflexivity | tauto || done]);
    destruct Hm as [Hm|Hm]; try congruence; exfalso; tauto.
Qed.

Lemma store_ok_create (h : Request → St Proc Response) r s :
  h = V1_create ∨ h = V2_create ∨ h = V3_create →
  store_ok (Repo s) → store_ok (Repo (h r s).2).
Proof.
  intros Hh Hs.
  destruct (rejected_or_well_formed r) as [Hrej|(userID & plan & Hwf)].
  - destruct (create_rejected r s Hrej) as (msg & H1 & H2 & H3).
    by destruct Hh as [->|[->| ->]]; rewrite ?H1, ?H2, ?H3.
  - assert (Hplan : IsValidPlan plan = true) by apply Hwf.
    assert (store_ok (Repo (charged AddDate s (ReqContext r) userID plan)))
      by (by apply store_ok_created).
    assert (store_ok (Repo (compensated s (ReqContext r) userID plan)))
      by (by apply store_ok_deleted).
    destruct Hh as [->|[->| ->]];
      [rewrite (V1_createSubscription_unfold _ _ _ _ _ _ _ Hwf)
      |rewrite (V2_createSubscription_unfold _ _ _ _ _ _ _ Hwf)
      |rewrite (V3_createSubscription_unfold _ _ _ _ _ _ _ Hwf)];
      by destruct (outcome _ _ _ _ _).2.
Qed.

Lemma store_ok_collection (h : Request → St Proc Response) r s :
  h = V1_create ∨ h = V2_create ∨ h = V3_create →
  store_ok (Repo s) →
  store_ok (Repo ((resp ←$ h r; st_ret (reply_of resp)) s).2).
Proof.
  intros Hh Hs. pose proof (store_ok_create h r s Hh Hs) as Hok.
  unfold st_bind. by destruct (h r s).
Qed.

Lemma store_ok_on_repository f s :
  (∀ r, store_ok r → store_ok (f r).2) →
  store_ok (Repo s) → store_ok (Repo (on_repository f s).2).
Proof.
  intros Hf Hs. unfold on_repository. specialize (Hf (Repo s) Hs).
  by destruct (f (Repo s)).
Qed.

Lemma store_ok_handler_of route (r : Inbound) s :
  store_ok (Repo s) → store_ok (Repo (handler_of route r s).2).
Proof.
  intros Hs.
  destruct route; cbn [Routes.handler_of];
    unfold V1_HandleSubscriptions, V2_HandleSubscriptions,
      V3_HandleSubscriptions, V1_HandleSubscriptionByID,
      V2_HandleSubscriptionByID, V3_HandleSubscriptionByID;
    repeat case_decide; try exact Hs;
    try (apply store_ok_collection; [tauto | exact Hs]);
    apply store_ok_on_repository; try exact Hs; intros repo Hrepo.
  - by apply store_ok_update_handlers.
  - by apply store_ok_delete_handlers.
  - by apply store_ok_update_handlers.
  - by apply store_ok_delete_handlers.
  - by apply store_ok_update_handlers.
  - by apply store_ok_delete_handlers.
Qed.

(** X12: whatever requests are served, in whatever order and by whichever
    of the six handlers, a store that starts in order stays in order:
    every record sits under its own identifier, of the form "sub_N" with
    [N < 2^63], and carries a recognised plan. *)
Theorem serve_keeps_store_ok (reqs : list (Route * Inbound)) s :
  store_ok (Repo s) → store_ok (Repo (serve reqs s).2).
Proof.
  revert s. induction reqs as [|[route r] reqs IH]; intros s Hs; [exact Hs|].
  cbn [Routes.serve]. unfold st_bind at 1.
  pose proof (store_ok_handler_of route r s Hs) as Hstep.
  destruct (handler_of route r s) as [reply s1]. cbn in Hstep.
  unfold st_bind. specialize (IH s1 Hstep).
  by destruct (serve reqs s1).
Qed.

Lemma by_id_GET v (r : Inbound) s :
  Method r = "GET" →
  handler_of (by_id v) r s
  = (V1_getSubscription (Repo s) (path_after (by_id_prefix v) (URLPath r)), s).
Proof.
  intros Hm.
  destruct v; cbn [by_id by_id_prefix Routes.handler_of];
    unfold V1_HandleSubscriptionByID, V2_HandleSubscriptionByID,
      V3_HandleSubscriptionByID;
    by rewrite decide_True.
Qed.

Lemma collection_POST v (r : Inbound) s sub s1 :
  Method r = "POST" →
  handler_of (collection v) r s = (ReplySubscription sub, s1) →
  ∃ userID plan,
    sub = created AddDate (world s) userID plan
    ∧ s1 = charged AddDate s (ReqContext (Payload r)) userID plan.
Proof.
  intros Hm Hpost.
  assert (Hcreate : ∃ h, (h = V1_create ∨ h = V2_create ∨ h = V3_create)
                         ∧ h (Payload r) s = (Encoded sub, s1)).
  { destruct v; cbn [collection Routes.handler_of] in Hpost;
      unfold V1_HandleSubscriptions, V2_HandleSubscriptions,
        V3_HandleSubscriptions in Hpost;
      rewrite decide_True in Hpost by done; unfold st_bind in Hpost;
      [exists V1_create | exists V2_create | exists V3_create];
      (split; [tauto|]);
      match type of Hpost with
      | context [?h (Payload r) s] =>
          destruct (h (Payload r) s) as [[msg code|sub'] s'];
            unfold st_ret in Hpost; cbn in Hpost; by simplify_eq
      end. }
  destruct Hcreate as (h & Hh & Hrun).
  destruct (rejected_or_well_formed (Payload r))
    as [Hrej|(userID & plan & Hwf)].
  { destruct (create_rejected (Payload r) s Hrej) as (msg & H1 & H2 & H3).
    destruct Hh as [->|[->| ->]]; congruence. }
  exists userID, plan.
  destruct Hh as [->|[->| ->]];
    [rewrite (V1_createSubscription_unfold _ _ _ _ _ _ _ Hwf) in Hrun
    |rewrite (V2_createSubscription_unfold _ _ _ _ _ _ _ Hwf) in Hrun
    |rewrite (V3_createSubscription_unfold _ _ _ _ _ _ _ Hwf) in Hrun];
    destruct (outcome _ _ _ _ _).2; by simplify_eq.
Qed.

(** X13: what a POST returns, a GET of its identifier returns: when a
    create request on any version's collection route is answered with a
    subscription, a GET on any version's by-id route for that
    subscription's identifier, made right after, is answered with the same
    subscription. *)
Theorem created_then_fetched v v' (post get : Inbound) s sub s1 :
  Method post = "POST" →
  Method get = "GET" →
  URLPath get = by_id_prefix v' +:+ ID sub →
  handler_of (collection v) post s = (ReplySubscription sub, s1) →
  handler_of (by_id v') get s1 = (ReplySubscription sub, s1).
Proof.
  intros Hpost Hget Hpath Hrun.
  destruct (collection_POST v post s sub s1 Hpost Hrun)
    as (userID & plan & -> & ->).
  rewrite (by_id_GET v' get _ Hget), Hpath, path_after_prefix.
  unfold V1_getSubscription. cbn [ID StoreSpec.created].
  by rewrite charged_present.
Qed.

End WithDependencies.

(** X14: the update handlers check the plan but not the user id: for a
    record that is present and a recognised plan, every user id, the
    empty one included, is written to the record, which is answered back
    and read back with its identifier, start and end unchanged. *)
Theorem update_accepts_any_user r id sub userID plan :
  GetByID r id = (sub, true) →
  IsValidPlan plan = true →
  let res := V1_updateSubscription r (Some (mkReqData userID plan)) id in
  res.1 = ReplySubscription
            (mkSubscription (ID sub) userID plan (StartDate sub) (EndDate sub))
  ∧ V1_getSubscription res.2 id = res.1.
Proof.
  intros Hget%GetByID_found Hplan. cbn zeta.
  unfold V1_updateSubscription, V1_getSubscription, Update, GetByID.
  cbn [rd_UserID rd_Plan]. rewrite Hplan, Hget. cbn.
  by rewrite lookup_insert_eq.
Qed.

Lemma update_accepts_any_user_witness :
  let res := V1_updateSubscription sample_repo
               (Some (mkReqData "" "premium")) "sub_7" in
  res.1 = ReplySubscription (mkSubscription "sub_7" "" "premium" 100 200)
  ∧ V1_getSubscription res.2 "sub_7" = res.1.
Proof.
  apply (update_accepts_any_user sample_repo "sub_7" sample_sub "" "premium");
    reflexivity.
Defined.

Lemma created_then_fetched_witness :
  handler_of sample_AddDate net_up svc (by_id V1)
    (mkInbound "GET" "/v1/subscriptions/sub_5" create_u1_premium)
    (charged sample_AddDate proc_new Live "u1" "premium")
  = (ReplySubscription (created sample_AddDate (world proc_new) "u1" "premium"),
     charged sample_AddDate proc_new Live "u1" "premium").
Proof.
  apply (created_then_fetched sample_AddDate net_up svc V3 V1
           (mkInbound "POST" "/v3/subscriptions" create_u1_premium)
           (mkInbound "GET" "/v1/subscriptions/sub_5" create_u1_premium)
           proc_new); reflexivity.
Defined.

Lemma GET_and_unsupported_change_nothing_witness :
  (handler_of sample_AddDate net_down svc V1_subscriptions
              (mkInbound "PATCH" "/v1/subscriptions" create_u1_premium)
              proc_sub_7).2 = proc_sub_7
  ∧ (¬ supported V1_subscriptions "PATCH" →
     (handler_of sample_AddDate net_down svc V1_subscriptions
                 (mkInbound "PATCH" "/v1/subscriptions" create_u1_premium)
                 proc_sub_7).1
     = ReplyError "Method not allowed" StatusMethodNotAllowed).
Proof.
  apply (GET_and_unsupported_change_nothing sample_AddDate net_down svc
           V1_subscriptions
           (mkInbound "PATCH" "/v1/subscriptions" create_u1_premium)
           proc_sub_7).
  right. cbn. intros [?|?]; discriminate.
Defined.

Lemma rejected_create_changes_nothing_witness :
  ∃ msg,
    V2_createSubscription sample_AddDate net_up svc
      (mkRequest (Some (mkReqData "u1" "gold")) Live) proc_new
    = (HttpError msg StatusBadRequest, proc_new).
Proof.
  apply (rejected_create_changes_nothing sample_AddDate net_up svc
           (V2_createSubscription sample_AddDate net_up svc)
           (mkRequest (Some (mkReqData "u1" "gold")) Live) proc_new).
  - right. by left.
  - right. eexists. split; [reflexivity|]. by right.
Defined.

Lemma serve_keeps_store_ok_witness :
  store_ok
    (Repo (serve sample_AddDate net_down svc
             [(V2_subscriptions,
               mkInbound "POST" "/v2/subscriptions" create_u1_premium);
              (V1_subscription_by_id,
               mkInbound "PUT" "/v1/subscriptions/sub_7"
                         (mkRequest (Some (mkReqData "" "premium")) Live));
              (V3_subscription_by_id,
               mkInbound "DELETE" "/v3/subscriptions/sub_9" create_u1_premium)]
             proc_sub_7).2).
Proof.
  apply (serve_keeps_store_ok sample_AddDate net_down svc).
  intros k sub. cbn. rewrite lookup_singleton.
  case_decide as Hk; [|done]. intros [= <-]. subst k.
  split; [done|]. split; [done|]. exists 7%N. split; [done | reflexivity].
Defined.

End RoutesFacts.

(** ** More on the payment service *)

Module ProcessorFacts.
Import Runtime PaymentModels PaymentProcessor PaymentSpec ProcessorSpec.
Import Samples PaymentSamples PaymentFacts.

Lemma ValidatePaymentRequest_accepts req :
  ValidatePaymentRequest req = None ↔ ¬ validation_failure req.
Proof.
  unfold ValidatePaymentRequest, validation_failure.
  case_decide; [split; [done | tauto]|].
  destruct (PaymentRequest.Amount req <=? 0)%float; [split; [done | tauto]|].
  case_decide; [split; [done | tauto]|].
  split; [|done]. intros _ [?|[?|?]]; congruence.
Qed.

(** X15: validation accepts a request exactly when the subscription id is
    not empty, the amount is not [<= 0] and the plan is not empty; the
    first failing check names the error, so a missing subscription id is
    reported whatever the amount and the plan are. *)
Theorem ValidatePaymentRequest_checks req :
  (ValidatePaymentRequest req = None ↔
   PaymentRequest.SubscriptionID req ≠ ""
   ∧ (PaymentRequest.Amount req <=? 0)%float = false
   ∧ PaymentRequest.Plan req ≠ "")
  ∧ (∀ err, ValidatePaymentRequest req = Some err →
       PaymentError.Type_ err = "validation_error"
       ∧ (PaymentError.Code err = "MISSING_SUBSCRIPTION_ID" ↔
          PaymentRequest.SubscriptionID req = "")
       ∧ (PaymentError.Code err = "INVALID_AMOUNT" ↔
          PaymentRequest.SubscriptionID req ≠ ""
          ∧ (PaymentRequest.Amount req <=? 0)%float = true)
       ∧ (PaymentError.Code err = "MISSING_PLAN" ↔
          PaymentRequest.SubscriptionID req ≠ ""
          ∧ (PaymentRequest.Amount req <=? 0)%float = false
          ∧ PaymentRequest.Plan req = "")).
Proof.
  unfold ValidatePaymentRequest.
  destruct (decide (PaymentRequest.SubscriptionID req = "")) as [Hid|Hid].
  { split; [split; [done | tauto]|].
    intros err [= <-]. cbn. repeat split; try done; try tauto;
      intros; discriminate. }
  destruct (PaymentRequest.Amount req <=? 0)%float eqn:Hamt.
  { split; [split; [done | intros (_ & ? & _); done]|].
    intros err [= <-]. cbn. repeat split; try done; try tauto;
      try (intros; discriminate). intros (_ & ? & _); done. }
  destruct (decide (PaymentRequest.Plan req = "")) as [Hplan|Hplan].
  { split; [split; [done | tauto]|].
    intros err [= <-]. cbn. repeat split; try done; try tauto;
      try (intros; discriminate). intros (_ & ? ); done. }
  split; [done | done].
Qed.

(** X16: the fee never falls below the floor: whatever the amount
    (negative, zero, NaN) and the plan, the fee computed is not [< 0.30]. *)
Theorem CalculateFees_floor amount plan :
  (CalculateFees amount plan <? 0.30)%float = false.
Proof.
  rewrite CalculateFees_fee_rate.
  by destruct (amount * fee_rate plan <? 0.30)%float eqn:Hlt.
Qed.

(** X17: [GetRandomFailureType] consumes one integer draw and returns the
    entry of the five-entry table at the draw modulo five, so that each of
    the five failure kinds is returned for some draw and nothing else ever
    is. *)
Theorem GetRandomFailureType_table w :
  let res := GetRandomFailureType w in
  failures !! N.to_nat (rand_src w (rand_pos w) mod 5)%N = Some res.1
  ∧ rand_pos res.2 = S (rand_pos w)
  ∧ float_pos res.2 = float_pos w
  ∧ slept res.2 = slept w
  ∧ (PaymentError.Type_ <$> failures) = failure_kinds
  ∧ ∀ i failure, failures !! i = Some failure →
      rand_src w (rand_pos w) = N.of_nat i →
      res.1 = failure.
Proof.
  cbn zeta.
  destruct (failures_lookup (rand_src w (rand_pos w)))
    as (failure & Hlook & _ & _).
  assert (Hres : (GetRandomFailureType w).1 = failure).
  { unfold GetRandomFailureType, rand_Intn, draw_int, st_bind, st_ret.
    cbn -[failures N.of_nat N.modulo]. by rewrite Hlook. }
  rewrite Hres. split; [exact Hlook|]. do 4 (split; [reflexivity|]).
  intros i failure' Hi Hdraw. rewrite Hdraw in Hlook.
  assert (Hlt : (i < 5)%nat) by (apply lookup_lt_Some in Hi; exact Hi).
  rewrite N.mod_small, Nat2N.id in Hlook by (cbn; lia). congruence.
Qed.

(** Every run of the processor, by its three ways out. *)
Lemma ProcessPayment_run p ctx req w :
  ∃ resp err w',
    ProcessPayment p ctx req w = ((resp, err), w')
    ∧ ((validation_failure req
        ∧ resp = None
        ∧ (∃ e, err = Some e ∧ PaymentError.Type_ e = "validation_error")
        ∧ w' = w)
       ∨ (¬ validation_failure req
          ∧ EnableFailures (config p) = true
          ∧ (float_src w (float_pos w) <? FailureRate (config p))%float = true
          ∧ (∃ r e, resp = Some r ∧ err = Some e
               ∧ PaymentResponse.Status r = StatusFailed
               ∧ PaymentResponse.Amount r = PaymentRequest.Amount req
               ∧ PaymentResponse.Currency r = getCurrency req
               ∧ PaymentResponse.Fees r = 0%float
               ∧ e ∈ failures
               ∧ PaymentError.Type_ e ∈ failure_kinds)
          ∧ slept w' = delay_naps p ++ slept w)
       ∨ (¬ validation_failure req
          ∧ (EnableFailures (config p) = true →
             (float_src w (float_pos w) <? FailureRate (config p))%float
             = false)
          ∧ (∃ r, resp = Some r ∧ err = None
               ∧ PaymentResponse.Status r = StatusCompleted
               ∧ PaymentResponse.Amount r = PaymentRequest.Amount req
               ∧ PaymentResponse.Currency r = getCurrency req
               ∧ PaymentResponse.Fees r
                 = CalculateFees (PaymentRequest.Amount req)
                                 (PaymentRequest.Plan req))
          ∧ ∃ extra,
              slept w' = extra ++ delay_naps p ++ slept w
              ∧ (extra = []
                 ∨ ∃ n, extra = [Z.of_N n * Millisecond] ∧ (n < 200)%N))).
Proof.
  destruct (ValidatePaymentRequest req) as [e|] eqn:Hval.
  { assert (Hbad : validation_failure req).
    { destruct (decide (validation_failure req)) as [?|Hok]; [done|].
      apply ValidatePaymentRequest_accepts in Hok. congruence. }
    destruct (ValidatePaymentRequest_rejects req Hbad) as (e' & He' & Hty).
    exists None, (Some e), w. unfold ProcessPayment. rewrite Hval.
    split; [done|]. left. split; [done|]. split; [done|].
    split; [|done]. exists e. split; [done|]. congruence. }
  pose proof (proj1 (ValidatePaymentRequest_accepts req) Hval) as Hok.
  unfold ProcessPayment, delay_naps. rewrite Hval.
  destruct (failures_lookup (rand_src w (rand_pos w)))
    as (failure & Hlook & Hin & Hkind).
  destruct (EnableFailures (config p)) eqn:Hon;
    destruct (0 <? ProcessingDelay (config p)) eqn:Hdelay;
    cbn -[failures N.of_nat N.modulo pretty String.append Z.mul];
    try (destruct (float_src w (float_pos w) <? FailureRate (config p))%float
           eqn:Hdraw;
         cbn -[failures N.of_nat N.modulo pretty String.append Z.mul]);
    try (rewrite Hlook; eexists _, _, _; split; [reflexivity|];
         right; left; do 3 (split; [done|]);
         split; [by eexists _, failure | done]);
    match goal with
    | |- context [(float_src w ?k <? 0.1)%float] =>
        destruct (float_src w k <? 0.1)%float
    end;
    cbn -[failures N.of_nat N.modulo pretty String.append Z.mul];
    eexists _, _, _; (split; [reflexivity|]);
    right; right; (split; [done|]); (split; [done|]);
    (split; [by eexists|]);
    first [ by (exists []; split; [reflexivity | left])
          | eexists [_]; split; [reflexivity|]; right; eexists; split;
            [reflexivity | by apply N.mod_lt] ].
Qed.

(** X18: the processor has three ways out and no other: a validation
    error without a response, in a world left untouched; a "failed"
    response together with one of the five simulated failures, only when
    failure injection is enabled; or a "completed" response without
    error, carrying the request's amount, its currency ("USD" when the
    request names none) and the fee of [CalculateFees].  It never returns
    neither a response nor an error. *)
Theorem ProcessPayment_three_ways_out p ctx req w :
  let res := (ProcessPayment p ctx req w).1 in
  (res.1 = None ∧ res.2 = None → False)
  ∧ ((∃ e, res = (None, Some e)
        ∧ PaymentError.Type_ e = "validation_error"
        ∧ validation_failure req
        ∧ (ProcessPayment p ctx req w).2 = w)
     ∨ (∃ r e, res = (Some r, Some e)
          ∧ PaymentResponse.Status r = StatusFailed
          ∧ PaymentError.Type_ e ∈ failure_kinds
          ∧ EnableFailures (config p) = true)
     ∨ (∃ r, res = (Some r, None)
          ∧ PaymentResponse.Status r = StatusCompleted
          ∧ PaymentResponse.Amount r = PaymentRequest.Amount req
          ∧ PaymentResponse.Currency r = getCurrency req
          ∧ PaymentResponse.Currency r ≠ ""
          ∧ PaymentResponse.Fees r
            = CalculateFees (PaymentRequest.Amount req)
                            (PaymentRequest.Plan req))).
Proof.
  destruct (ProcessPayment_run p ctx req w) as (resp & err & w' & -> & Hrun).
  cbn [fst snd].
  destruct Hrun as [(Hbad & -> & (e & -> & Hty) & ->)
                   |[(_ & Hon & _ & (r & e & -> & -> & Hst & _ & _ & _ & _ & Hk) & _)
                    |(_ & _ & (r & -> & -> & Hst & Hamt & Hcur & Hfee) & _)]].
  - split; [intros [_ ?]; done|]. left. by exists e.
  - split; [intros [? _]; done|]. right. left. by exists r, e.
  - split; [intros [? _]; done|]. right. right. exists r.
    do 4 (split; [done|]). split; [|done].
    rewrite Hcur. unfold getCurrency. by case_decide.
Qed.

(** X19: one call sleeps at most the configured delay plus 199 ms, and a
    call that returns an error sleeps at most the configured delay (a
    validation error: not at all); sleeps already recorded are kept. *)
Theorem ProcessPayment_sleeps p ctx req w :
  let res := ProcessPayment p ctx req w in
  ∃ naps,
    slept res.2 = naps ++ slept w
    ∧ Forall (λ d, 0 ≤ d) naps
    ∧ total naps ≤ Z.max 0 (ProcessingDelay (config p)) + 199 * Millisecond
    ∧ (res.1.2 ≠ None →
       total naps ≤ Z.max 0 (ProcessingDelay (config p)))
    ∧ (validation_failure req → naps = []).
Proof.
  destruct (ProcessPayment_run p ctx req w) as (resp & err & w' & -> & Hrun).
  cbn [fst snd].
  assert (Hnaps : Forall (λ d, 0 ≤ d) (delay_naps p)
                  ∧ total (delay_naps p)
                    = Z.max 0 (ProcessingDelay (config p))).
  { unfold delay_naps.
    destruct (0 <? ProcessingDelay (config p)) eqn:Hd; cbn.
    - apply Z.ltb_lt in Hd. split; [repeat constructor; lia | lia].
    - apply Z.ltb_ge in Hd. split; [constructor | lia]. }
  destruct Hnaps as [Hpos Htot]. unfold Millisecond.
  destruct Hrun as [(Hbad & -> & (e & -> & Hty) & ->)
                   |[(Hok & _ & _ & (r & e & -> & -> & _) & Hsl)
                    |(Hok & _ & (r & -> & -> & _) & extra & Hsl & Hextra)]].
  - exists []. cbn.
    split; [done|]. split; [constructor|]. split; [lia|].
    split; [intros _; lia | done].
  - exists (delay_naps p). rewrite Htot.
    split; [done|]. split; [done|]. split; [lia|].
    split; [intros _; lia | tauto].
  - exists (extra ++ delay_naps p).
    split; [by rewrite <- app_assoc|].
    destruct Hextra as [->|(n & -> & Hn)]; cbn [app].
    + rewrite Htot. split; [done|]. split; [lia|]. split; [done | tauto].
    + unfold Millisecond. split; [constructor; [lia | done]|].
      split; [|split; [done | tauto]].
      change (total (Z.of_N n * 1000000 :: delay_naps p))
        with (Z.of_N n * 1000000 + total (delay_naps p)).
      rewrite Htot. lia.
Qed.

(** X20: the amount check is a float comparison, and NaN is not [<= 0]:
    a request with a NaN amount, a subscription id and a plan passes
    validation, and unless a failure is simulated it is completed, with a
    NaN amount and a NaN fee. *)
Theorem ProcessPayment_NaN_amount p ctx req w :
  PaymentRequest.Amount req = nan →
  PaymentRequest.SubscriptionID req ≠ "" →
  PaymentRequest.Plan req ≠ "" →
  EnableFailures (config p) = false →
  ValidatePaymentRequest req = None
  ∧ ∃ r, (ProcessPayment p ctx req w).1 = (Some r, None)
      ∧ PaymentResponse.Status r = StatusCompleted
      ∧ PaymentResponse.Amount r = nan
      ∧ PaymentResponse.Fees r = nan.
Proof.
  intros Hnan Hid Hplan Hoff.
  assert (Hok : ¬ validation_failure req).
  { intros [?|[Hle|?]]; [done| |done]. by rewrite Hnan in Hle. }
  split; [by apply ValidatePaymentRequest_accepts|].
  destruct (ProcessPayment_run p ctx req w) as (resp & err & w' & -> & Hrun).
  cbn [fst].
  destruct Hrun as [(? & _)|[(_ & Hon & _)
                   |(_ & _ & (r & -> & -> & Hst & Hamt & Hcur & Hfee) & _)]];
    [done | congruence |].
  exists r. split; [done|]. split; [done|]. split; [congruence|].
  rewrite Hfee, Hnan, CalculateFees_fee_rate. unfold fee_rate.
  by repeat case_decide.
Qed.

Lemma ProcessPayment_NaN_amount_witness :
  ValidatePaymentRequest MoreSamples.pay_nan = None
  ∧ ∃ r, (ProcessPayment never_failing Live MoreSamples.pay_nan
                         (world_const 7)).1 = (Some r, None)
      ∧ PaymentResponse.Status r = StatusCompleted
      ∧ PaymentResponse.Amount r = nan
      ∧ PaymentResponse.Fees r = nan.
Proof.
  apply (ProcessPayment_NaN_amount never_failing Live MoreSamples.pay_nan
           (world_const 7)); [reflexivity | discriminate.. | reflexivity].
Defined.

End ProcessorFacts.

(** ** The payment handlers *)

Module PaymentHandlerFacts.
Import Runtime PaymentModels PaymentProcessor PaymentHandlers.
Import PaymentSpec ProcessorSpec Samples PaymentSamples.
Import PaymentFacts ProcessorFacts.

Lemma failure_kinds_sides type_ :
  type_ ∈ failure_kinds → caller_side type_ ∨ server_side type_.
Proof.
  unfold failure_kinds, caller_side, server_side.
  rewrite !elem_of_cons, elem_of_nil. tauto.
Qed.

Lemma handlePaymentError_status e :
  (caller_side (PaymentError.Type_ e) →
   status (handlePaymentError (IsPaymentError e)) = StatusBadRequest)
  ∧ (server_side (PaymentError.Type_ e) →
     status (handlePaymentError (IsPaymentError e))
     = StatusInternalServerError).
Proof.
  unfold handlePaymentError, caller_side, server_side. cbn.
  split.
  - intros [->|[->| ->]]; reflexivity.
  - intros [->|[->| ->]]; reflexivity.
Qed.

(** X21: the payment handler never panics, whatever the request: it
    always writes an answer.  Anything but a POST is answered 405 and a
    body that does not decode 400, in both cases without running the
    processor (the world is untouched); and the answer is 200 exactly
    when the request was a POST whose body decoded and the processor
    returned a response without error, which is then the body. *)
Theorem HandleProcessPayment_answers p (r : Inbound) w :
  let res := HandleProcessPayment p r w in
  ∃ a,
    res.1 = Answered a
    ∧ (Method r ≠ "POST" →
       a = mkAnswer StatusMethodNotAllowed (Text "Method not allowed")
       ∧ res.2 = w)
    ∧ (Method r = "POST" → Body r = None →
       a = mkAnswer StatusBadRequest (Text "Invalid JSON") ∧ res.2 = w)
    ∧ (status a = StatusOK ↔
       ∃ req resp,
         Method r = "POST" ∧ Body r = Some req
         ∧ (ProcessPayment p (ReqContext r) req w).1 = (Some resp, None)
         ∧ body a = PaymentJSON resp).
Proof.
  unfold HandleProcessPayment. cbn zeta.
  destruct (decide (Method r ≠ "POST")) as [Hm|Hm].
  { eexists. split; [reflexivity|]. split; [done|]. split; [done|].
    split; [discriminate|]. intros (? & ? & ? & _). done. }
  apply dec_stable in Hm.
  destruct (Body r) as [req|] eqn:Hbody.
  2:{ eexists. split; [reflexivity|]. split; [done|]. split; [done|].
      split; [discriminate|]. intros (? & ? & _ & ? & _). done. }
  unfold st_bind.
  destruct (ProcessPayment_run p (ReqContext r) req w)
    as (resp & err & w' & Hrun & Hcases).
  rewrite Hrun. cbn [fst snd].
  destruct Hcases as [(_ & -> & (e & -> & Hty) & _)
                     |[(_ & _ & _ & (r' & e & -> & -> & _ & _ & _ & _ & _ & Hk) & _)
                      |(_ & _ & (r' & -> & -> & _) & _)]].
  - eexists. split; [reflexivity|]. split; [done|]. split; [done|].
    split; [|intros (? & ? & _ & [= <-] & Hp & _);
              rewrite Hrun in Hp; discriminate].
    destruct (handlePaymentError_status e) as [H400 _].
    rewrite H400 by (by left). discriminate.
  - eexists. split; [reflexivity|]. split; [done|]. split; [done|].
    split; [|intros (? & ? & _ & [= <-] & Hp & _);
              rewrite Hrun in Hp; discriminate].
    destruct (handlePaymentError_status e) as [H400 H500].
    destruct (failure_kinds_sides _ Hk) as [Hside|Hside];
      [rewrite H400 by done | rewrite H500 by done]; discriminate.
  - eexists. split; [reflexivity|]. split; [done|]. split; [done|].
    split; [|done]. intros _. exists req, r'. by rewrite Hrun.
Qed.

(** X22: each error of the processor has its status: a validation error,
    insufficient funds and an invalid card are answered 400, a network
    error, a processing error and a timeout 500, and the processor
    returns no error of another type; the body names the error's code,
    message and type. *)
Theorem HandleProcessPayment_error_status p (r : Inbound) req e w :
  Method r = "POST" →
  Body r = Some req →
  (ProcessPayment p (ReqContext r) req w).1.2 = Some e →
  ∃ a,
    (HandleProcessPayment p r w).1 = Answered a
    ∧ body a = ErrorJSON (PaymentError.Code e) (PaymentError.Message e)
                         (PaymentError.Type_ e)
    ∧ ((caller_side (PaymentError.Type_ e) ∧ status a = StatusBadRequest)
       ∨ (server_side (PaymentError.Type_ e)
          ∧ status a = StatusInternalServerError)).
Proof.
  intros Hm Hbody Herr. unfold HandleProcessPayment.
  rewrite decide_False by (intros ?; done). rewrite Hbody. unfold st_bind.
  destruct (ProcessPayment_run p (ReqContext r) req w)
    as (resp & err & w' & Hrun & Hcases).
  rewrite Hrun in Herr |- *. cbn [fst snd] in Herr |- *. subst err.
  eexists. split; [reflexivity|]. split; [reflexivity|].
  destruct (handlePaymentError_status e) as [H400 H500].
  destruct Hcases as [(_ & _ & (e' & [= <-] & Hty) & _)
                     |[(_ & _ & _ & (r' & e' & _ & [= <-] & _ & _ & _ & _ & _ & Hk) & _)
                      |(_ & _ & (r' & _ & [=] & _) & _)]].
  - left. assert (caller_side (PaymentError.Type_ e)) by (by left). auto.
  - destruct (failure_kinds_sides _ Hk); [left | right]; auto.
Qed.



Lemma HandleProcessPayment_error_status_witness :
  ∃ a,
    (HandleProcessPayment always_failing MoreSamples.post_premium
                          (world_const 7)).1 = Answered a
    ∧ body a = ErrorJSON "NETWORK_ERROR" "network connection failed"
                         "network_error"
    ∧ ((caller_side "network_error" ∧ status a = StatusBadRequest)
       ∨ (server_side "network_error"
          ∧ status a = StatusInternalServerError)).
Proof.
  apply (HandleProcessPayment_error_status always_failing
           MoreSamples.post_premium pay_premium
           (PaymentError.mk "NETWORK_ERROR" "network connection failed"
                            "network_error")
           (world_const 7)); reflexivity.
Defined.


End PaymentHandlerFacts.

(** ** From the workflow to the processor and back *)

Module WireFacts.
Import Runtime.
Import StoreSpec WorkflowSpec PaymentSpec ProcessorSpec Wire.
Import Samples PaymentSamples.
Import RepositoryFacts WorkflowFacts PaymentFacts ProcessorFacts.

Lemma handlePaymentError_not_OK err :
  PaymentHandlers.status (PaymentHandlers.handlePaymentError err)
  ≠ PaymentHandlers.StatusOK.
Proof.
  destruct err as [e|msg]; cbn; [|discriminate].
  by destruct (_ || _).
Qed.

(** X24: the payment client returns either a response or an error, never
    both and never neither; it returns a response exactly when the
    request could be encoded and built and the round trip came back with
    status 200 and a body that decodes, and the response is that body. *)
Theorem client_response_or_error net p ctx req :
  let res := Services.ProcessPayment net p ctx req in
  (res.1 = None ↔ res.2 ≠ None)
  ∧ ∀ resp,
      res = (Some resp, None) ↔
      Services.json_Marshal req = inr req
      ∧ Services.new_request_err net (Services.baseURL p +:+ "/payments")
        = None
      ∧ Services.client_Do net ctx (Services.baseURL p +:+ "/payments") req
        = Services.HttpResponse 200 (inr resp).
Proof.
  unfold Services.ProcessPayment. cbn zeta.
  assert (Hm : ∀ data, Services.json_Marshal req = inr data → data = req).
  { unfold Services.json_Marshal. intros data.
    destruct (is_nan _); [done|].
    destruct (_ =? infinity)%float; [done|].
    destruct (_ =? neg_infinity)%float; [done|]. by intros [= <-]. }
  destruct (Services.json_Marshal req) as [e|data] eqn:Hdata.
  { split; [done|]. intros resp. split; [done | by intros ([=] & _)]. }
  rewrite (Hm data eq_refl).
  destruct (Services.new_request_err net _) as [e|] eqn:Hnew.
  { split; [done|]. intros resp. split; [done | by intros (_ & [=] & _)]. }
  destruct (Services.client_Do net ctx _ req) as [e|st body] eqn:Hdo.
  { split; [done|]. intros resp. split; [done | by intros (_ & _ & [=])]. }
  case_decide as Hst.
  { split; [done|]. intros resp. split; [done|].
    intros (_ & _ & [= -> _]). done. }
  subst st.
  destruct body as [e|resp'].
  { split; [done|]. intros resp. split; [done | by intros (_ & _ & [=])]. }
  split; [split; [done | intros H; by contradict H]|].
  intros resp. split.
  - by intros [= ->].
  - by intros (_ & _ & [= ->]).
Qed.

Lemma charge_valid s plan :
  Models.IsValidPlan plan = true →
  ¬ validation_failure (wire_request (charge s plan)).
Proof.
  intros [->| ->]%IsValidPlan_true; unfold validation_failure; cbn;
    intros [?|[?|?]]; discriminate.
Qed.

(** X25: the request a create workflow builds for a recognised plan is
    never turned down by the payment service's validation; the processor
    answers it either with a simulated failure (only when failure
    injection is on) or with a completed payment of the plan's price in
    "USD", whose fee is 0.30 for "basic" (2.9% of 10.00, floored) and 0.50
    for "premium" (2.5% of 20.00). *)
Theorem workflow_charge_at_the_processor s plan p ctx w :
  Models.IsValidPlan plan = true →
  PaymentModels.ValidatePaymentRequest (wire_request (charge s plan)) = None
  ∧ ((∃ r e,
        (PaymentProcessor.ProcessPayment p ctx
           (wire_request (charge s plan)) w).1 = (Some r, Some e)
        ∧ PaymentModels.PaymentError.Type_ e ∈ failure_kinds
        ∧ PaymentProcessor.EnableFailures (PaymentProcessor.config p) = true)
     ∨ (∃ r,
          (PaymentProcessor.ProcessPayment p ctx
             (wire_request (charge s plan)) w).1 = (Some r, None)
          ∧ PaymentModels.PaymentResponse.Status r = "completed"
          ∧ PaymentModels.PaymentResponse.Amount r = Models.GetPlanPrice plan
          ∧ PaymentModels.PaymentResponse.Currency r = "USD"
          ∧ PaymentModels.PaymentResponse.Fees r
            = if decide (plan = "basic") then 0.30%float else 0.5%float)).
Proof.
  intros Hplan. pose proof (charge_valid s plan Hplan) as Hok.
  split; [by apply ValidatePaymentRequest_accepts|].
  destruct (ProcessPayment_run p ctx (wire_request (charge s plan)) w)
    as (resp & err & w' & -> & Hrun). cbn [fst].
  destruct Hrun as [(? & _)
                   |[(_ & Hon & _ & (r & e & -> & -> & _ & _ & _ & _ & _ & Hk) & _)
                    |(_ & _ & (r & -> & -> & Hst & Hamt & Hcur & Hfee) & _)]];
    [done | left; by exists r, e |].
  right. exists r. split; [done|]. split; [done|]. split; [done|].
  split; [done|]. rewrite Hfee.
  by apply IsValidPlan_true in Hplan as [->| ->].
Qed.

Section WithDependencies.

Variable AddDate : Time → Z → Z → Z → Time.
Variable net : Services.Http.
Variable paymentService : Services.PaymentService.

(** X26: end to end.  When the round trip of the V2 or V3 create workflow
    brings back the answer the payment handler gives to the workflow's
    request, the payment client returns an error exactly when the
    processor did, and the provisioned record is still in the store after
    the workflow exactly when the processor completed the payment. *)
Theorem record_kept_iff_payment_completed
    (h : Handlers.Request → St Handlers.Proc Handlers.Response)
    r s userID plan p ctx' w a :
  h = Handlers.V2_createSubscription AddDate net paymentService
  ∨ h = Handlers.V3_createSubscription AddDate net paymentService →
  well_formed r userID plan →
  Services.new_request_err net
    (Services.baseURL paymentService +:+ "/payments") = None →
  (PaymentHandlers.HandleProcessPayment p
     (PaymentHandlers.mkInbound "POST"
        (Some (wire_request (charge s plan))) ctx') w).1
  = PaymentHandlers.Answered a →
  delivers net (Handlers.ReqContext r)
           (Services.baseURL paymentService +:+ "/payments")
           (charge s plan) a →
  let remote :=
    (PaymentProcessor.ProcessPayment p ctx'
       (wire_request (charge s plan)) w).1 in
  ((outcome net paymentService s (Handlers.ReqContext r) plan).2 = None ↔
   remote.2 = None)
  ∧ ((Repository.GetByID (Handlers.Repo (h r s).2) (drawn_id (Handlers.world s) 0)).2
     = true ↔ remote.2 = None)
  ∧ ∀ resp, remote = (Some resp, None) →
      outcome net paymentService s (Handlers.ReqContext r) plan
      = (Some (wire_response resp), None).
Proof.
  intros Hh Hwf Hnew Hans (body & Hdo & Hbody). cbn zeta.
  assert (Hplan : Models.IsValidPlan plan = true) by apply Hwf.
  pose proof (charge_valid s plan Hplan) as Hok.
  assert (Hclient :
    outcome net paymentService s (Handlers.ReqContext r) plan
    = if decide (PaymentHandlers.status a ≠ Services.StatusOK) then
        (None, Some ("payment failed with status: "
                     +:+ pretty (PaymentHandlers.status a)))
      else match body with
           | inl e => (None, Some ("failed to decode payment response: " +:+ e))
           | inr resp => (Some resp, None)
           end).
  { unfold outcome, Services.ProcessPayment.
    rewrite json_Marshal_charge by done. by rewrite Hnew, Hdo. }
  assert (Hstore : ∀ err,
    (outcome net paymentService s (Handlers.ReqContext r) plan).2 = err →
    (Repository.GetByID (Handlers.Repo (h r s).2)
                        (drawn_id (Handlers.world s) 0)).2
    = bool_decide (err = None)).
  { intros err Herr.
    destruct Hh as [->| ->];
      [rewrite (V2_createSubscription_unfold _ _ _ _ _ _ _ Hwf)
      |rewrite (V3_createSubscription_unfold _ _ _ _ _ _ _ Hwf)];
      rewrite Herr; destruct err; cbn [snd];
      first [ apply compensated_absent | by rewrite charged_present ]. }
  unfold PaymentHandlers.HandleProcessPayment in Hans.
  rewrite decide_False in Hans by (intros ?; done).
  cbn [PaymentHandlers.Body PaymentHandlers.ReqContext] in Hans.
  unfold st_bind in Hans.
  destruct (ProcessPayment_run p ctx' (wire_request (charge s plan)) w)
    as (resp & err & w' & Hrun & Hcases).
  rewrite Hrun in Hans |- *. cbn [fst snd] in Hans |- *.
  destruct Hcases as [(? & _)
                     |[(_ & _ & _ & (r' & e & -> & -> & _) & _)
                      |(_ & _ & (r' & -> & -> & _) & _)]]; [done | |].
  - unfold st_ret in Hans. cbn [fst snd] in Hans. injection Hans as <-.
    rewrite decide_True in Hclient
      by apply (handlePaymentError_not_OK (PaymentHandlers.IsPaymentError e)).
    rewrite (Hstore _ (f_equal snd Hclient)), Hclient. cbn.
    split; [done|]. split; [done|]. intros resp [=].
  - unfold st_ret in Hans. cbn [fst snd] in Hans. injection Hans as <-.
    rewrite decide_False in Hclient by (intros H; by apply H).
    rewrite (Hbody r' eq_refl) in Hclient.
    rewrite (Hstore _ (f_equal snd Hclient)), Hclient. cbn.
    split; [done|]. split; [done|]. by intros resp [= ->].
Qed.

End WithDependencies.

Lemma workflow_charge_at_the_processor_witness :
  PaymentModels.ValidatePaymentRequest (wire_request (charge proc_new "basic"))
  = None
  ∧ ((∃ r e,
        (PaymentProcessor.ProcessPayment never_failing Live
           (wire_request (charge proc_new "basic")) (world_const 7)).1
        = (Some r, Some e)
        ∧ PaymentModels.PaymentError.Type_ e ∈ failure_kinds
        ∧ PaymentProcessor.EnableFailures
            (PaymentProcessor.config never_failing) = true)
     ∨ (∃ r,
          (PaymentProcessor.ProcessPayment never_failing Live
             (wire_request (charge proc_new "basic")) (world_const 7)).1
          = (Some r, None)
          ∧ PaymentModels.PaymentResponse.Status r = "completed"
          ∧ PaymentModels.PaymentResponse.Amount r
            = Models.GetPlanPrice "basic"
          ∧ PaymentModels.PaymentResponse.Currency r = "USD"
          ∧ PaymentModels.PaymentResponse.Fees r
            = if decide ("basic" = "basic") then 0.30%float else 0.5%float)).
Proof.
  apply (workflow_charge_at_the_processor proc_new "basic" never_failing Live
           (world_const 7)).
  reflexivity.
Defined.

Lemma record_kept_iff_payment_completed_witness :
  let remote :=
    (PaymentProcessor.ProcessPayment always_failing Live
       (wire_request (charge proc_new "premium")) (world_const 7)).1 in
  ((outcome (MoreSamples.served_by always_failing (world_const 7)) svc
            proc_new (Handlers.ReqContext create_u1_premium) "premium").2
   = None ↔ remote.2 = None)
  ∧ ((Repository.GetByID
        (Handlers.Repo
           (Handlers.V2_createSubscription sample_AddDate
              (MoreSamples.served_by always_failing (world_const 7)) svc
              create_u1_premium proc_new).2)
        (drawn_id (Handlers.world proc_new) 0)).2 = true ↔ remote.2 = None)
  ∧ ∀ resp, remote = (Some resp, None) →
      outcome (MoreSamples.served_by always_failing (world_const 7)) svc
              proc_new (Handlers.ReqContext create_u1_premium) "premium"
      = (Some (wire_response resp), None).
Proof.
  apply (record_kept_iff_payment_completed sample_AddDate
           (MoreSamples.served_by always_failing (world_const 7)) svc
           (Handlers.V2_createSubscription sample_AddDate
              (MoreSamples.served_by always_failing (world_const 7)) svc)
           create_u1_premium proc_new "u1" "premium"
           always_failing Live (world_const 7)
           (PaymentHandlers.mkAnswer 500
              (PaymentHandlers.ErrorJSON "NETWORK_ERROR"
                 "network connection failed" "network_error"))).
  - by left.
  - repeat split; [discriminate].
  - reflexivity.
  - reflexivity.
  - eexists. split; [reflexivity|]. intros resp [=].
Defined.

End WireFacts.

(** ** Identifiers *)

Module IdentifierFacts.
Import Stdlib.Strings.Ascii.
Import Runtime PaymentModels IdentifierSpec Samples.

Lemma separated_inj c a b a' b' :
  free_of c a → free_of c a' →
  a +:+ String c b = a' +:+ String c b' → a = a' ∧ b = b'.
Proof.
  revert a'. induction a as [|x a IH]; intros [|x' a']; simpl.
  - by intros _ _ [= ->].
  - intros _ [Hx _] [= -> _]. done.
  - intros [Hx _] _ [= -> _]. done.
  - intros [_ Ha] [_ Ha'] [= -> Heq].
    destruct (IH a' Ha Ha' Heq) as [-> ->]. done.
Qed.

Lemma pretty_N_char_not_underscore x : pretty_N_char x ≠ "_"%char.
Proof. unfold pretty_N_char. by repeat case_match. Qed.

Lemma pretty_N_go_free x : ∀ s,
  free_of "_" s → free_of "_" (pretty_N_go x s).
Proof.
  induction (N.lt_wf_0 x) as [x _ IH]. intros s Hs.
  destruct (decide (0 < x)%N) as [Hx|Hx].
  - rewrite pretty_N_go_step by done. apply IH; [by apply N.div_lt|].
    split; [apply pretty_N_char_not_underscore | done].
  - replace x with 0%N by lia. by rewrite pretty_N_go_0.
Qed.

Lemma pretty_N_free (x : N) : free_of "_" (pretty x).
Proof.
  unfold pretty, pretty_N. case_decide; [by cbn|].
  by apply pretty_N_go_free.
Qed.

Lemma pretty_Z_free (x : Z) : free_of "_" (pretty x).
Proof.
  destruct x as [|x|x]; unfold pretty, pretty_Z;
    [by cbn | apply pretty_N_free|].
  split; [done | apply pretty_N_free].
Qed.

(** X27: a payment identifier determines the clock reading and the 31-bit
    draw it was made from: two calls of [GeneratePaymentID] return the
    same identifier exactly when they read the same time and drew the
    same number. *)
Theorem GeneratePaymentID_inj w1 w2 :
  (GeneratePaymentID w1).1 = (GeneratePaymentID w2).1 ↔
  time_src w1 (time_pos w1) = time_src w2 (time_pos w2)
  ∧ (rand_src w1 (rand_pos w1) mod 2 ^ 31
     = rand_src w2 (rand_pos w2) mod 2 ^ 31)%N.
Proof.
  unfold GeneratePaymentID, time_Now, rand_Int31, draw_int, st_bind, st_ret.
  cbn [fst snd rand_src rand_pos time_src time_pos].
  split; [|by intros [-> ->]].
  intros H. apply (inj (String.append "pmt_")) in H.
  apply separated_inj in H as [Ht Hr]; [|apply pretty_Z_free..].
  split; [by apply (inj pretty) in Ht | by apply (inj pretty) in Hr].
Qed.

End IdentifierFacts.
